(** * The grading endpoint of backend1.py

    A shallow embedding of [POST /api/grade] (function [grade] of
    backend1.py) together with the helpers it relies on, and the
    properties of its request validation, prompt construction, reply
    resolution and error mapping.

    Conventions of the embedding:
    - a Python [str] is a list of Unicode code points ([pystr]);
    - a decoded JSON document is a value of [json]; Python's [None] is
      [JNull], a [dict] is an insertion-ordered association list;
    - the library calls the handler makes ([json.loads] and
      [client.chat.completions.create]) are variables of a section; a
      reference decoder written after CPython's [json.decoder] is
      supplied to run the handler on concrete texts;
    - the handler runs in a small monad that threads the trace of
      observable events (log records, outgoing API calls) and may raise
      a Python exception;
    - [grade] is the handler from the value that [get_json] returned,
      with a logger that returns on every record; [grade_io] is the
      handler with the call of [get_json] inside its [try] and a logger
      that may raise, and [grade_io_open] relates the two. *)

From Stdlib Require Import List Bool Arith NArith ZArith Lia String Ascii.
From Stdlib Require Import SpecFloat DecimalString.
Import ListNotations.

Set Implicit Arguments.

(** ** Python strings *)

(** A [str] is a sequence of code points. *)
Definition pystr := list N.

(** [py] turns an ASCII literal of this file into a [str]. *)
Definition py (s : string) : pystr :=
  map N_of_ascii (list_ascii_of_string s).

Definition LF : N := 10%N.
Definition DQUOTE : N := 34%N.
Definition LBRACE : N := 123%N.
Definition RBRACE : N := 125%N.

Fixpoint pystr_eqb (a b : pystr) : bool :=
  match a, b with
  | [], [] => true
  | x :: a', y :: b' => N.eqb x y && pystr_eqb a' b'
  | _, _ => false
  end.

(** [str.isspace] on one code point: the characters whose bidirectional
    class is WS, B or S, or whose category is Zs. *)
Definition isspace (c : N) : bool :=
  (((9 <=? c) && (c <=? 13)) || ((28 <=? c) && (c <=? 32))
   || (c =? 133) || (c =? 160) || (c =? 5760)
   || ((8192 <=? c) && (c <=? 8202))
   || (c =? 8232) || (c =? 8233) || (c =? 8239) || (c =? 8287)
   || (c =? 12288))%N.

Fixpoint lstrip (s : pystr) : pystr :=
  match s with
  | c :: s' => if isspace c then lstrip s' else s
  | [] => []
  end.

Definition rstrip (s : pystr) : pystr := rev (lstrip (rev s)).

(** [s.strip()] *)
Definition strip (s : pystr) : pystr := rstrip (lstrip s).

(** ** The regular expression of the repair step

    [re.search(r"\{.*\}", text, re.S)]: the pattern is a sequence of
    literal characters and [.*], which under [re.S] matches any run of
    code points, newlines included, and is greedy.  The matcher is the
    backtracking one of the [re] module: leftmost start, longest run
    first. *)

Inductive re_item :=
| Lit (c : N)
| DotStar.

Definition regex := list re_item.

(** [.*] followed by the rest of the pattern, whose matcher is [k]:
    the run is taken as long as possible and given back one character
    at a time. *)
Fixpoint star (k : pystr -> option nat) (s : pystr) : option nat :=
  match s with
  | [] => k []
  | _ :: s' =>
      match star k s' with
      | Some n => Some (S n)
      | None => k s
      end
  end.

(** Length of the match of [r] anchored at the head of the text. *)
Fixpoint match_here (r : regex) : pystr -> option nat :=
  match r with
  | [] => fun _ => Some 0
  | Lit c :: r' =>
      fun s =>
        match s with
        | x :: s' =>
            if N.eqb x c then option_map S (match_here r' s') else None
        | [] => None
        end
  | DotStar :: r' => star (match_here r')
  end.

(** [re.search(r, s)], giving [match.group(0)]. *)
Fixpoint re_search (r : regex) (s : pystr) : option pystr :=
  match match_here r s with
  | Some n => Some (firstn n s)
  | None =>
      match s with
      | [] => None
      | _ :: s' => re_search r s'
      end
  end.

(** [r"\{.*\}"] *)
Definition BRACE_SPAN : regex := [Lit LBRACE; DotStar; Lit RBRACE].

(** ** JSON values as Python objects *)

(** A Python [float] is an IEEE 754 binary64 number. *)
Definition pyfloat := spec_float.

#[local] Unset Elimination Schemes.
Inductive json :=
| JNull
| JBool (b : bool)
| JInt (z : Z)
| JFloat (f : pyfloat)
| JStr (s : pystr)
| JArr (l : list json)
| JObj (d : list (pystr * json)).
#[local] Set Elimination Schemes.

Definition pydict := list (pystr * json).

(** [d.get(k)] on the association list of a dict. *)
Fixpoint dict_lookup (k : pystr) (d : pydict) : option json :=
  match d with
  | [] => None
  | (k', v) :: d' => if pystr_eqb k k' then Some v else dict_lookup k d'
  end.

(** [d[k] = v]: an existing key keeps its place, a new one goes last. *)
Fixpoint dict_set (k : pystr) (v : json) (d : pydict) : pydict :=
  match d with
  | [] => [(k, v)]
  | (k', v') :: d' =>
      if pystr_eqb k k' then (k, v) :: d' else (k', v') :: dict_set k v d'
  end.

(** [dict(pairs)] *)
Definition dict_of_pairs (pairs : list (pystr * json)) : pydict :=
  fold_left (fun d kv => dict_set (fst kv) (snd kv) d) pairs [].

(** [type(x).__name__] *)
Definition type_name (v : json) : string :=
  match v with
  | JNull => "NoneType"
  | JBool _ => "bool"
  | JInt _ => "int"
  | JFloat _ => "float"
  | JStr _ => "str"
  | JArr _ => "list"
  | JObj _ => "dict"
  end.

(** [bool(x)] *)
Definition truthy (v : json) : bool :=
  match v with
  | JNull => false
  | JBool b => b
  | JInt z => negb (Z.eqb z 0)
  | JFloat f => match f with S754_zero _ => false | _ => true end
  | JStr s => match s with [] => false | _ => true end
  | JArr l => match l with [] => false | _ => true end
  | JObj d => match d with [] => false | _ => true end
  end.

(** [x or y] *)
Definition py_or (x y : json) : json := if truthy x then x else y.

(** ** Exceptions, events and the handler monad *)

(** Instances of [Exception], the class the outer [except] of the
    handler names, each with the text [str(e)] gives.  What lies outside
    that class ([KeyboardInterrupt], [SystemExit]) is no part of the
    model. *)
Inductive exn :=
| JSONDecodeError (msg : pystr)
| AttributeError (msg : pystr)
| IndexError (msg : pystr)
| OtherException (cls : string) (msg : pystr).

(** [str(e)] *)
Definition str_exn (e : exn) : pystr :=
  match e with
  | JSONDecodeError m | AttributeError m | IndexError m
  | OtherException _ m => m
  end.

(** [isinstance(e, json.JSONDecodeError)] *)
Definition is_JSONDecodeError (e : exn) : bool :=
  match e with JSONDecodeError _ => true | _ => false end.

Inductive outcome (A : Type) :=
| Returns (a : A)
| Raises (e : exn).
Arguments Raises {A} e.

(** The request sent to the completion API. *)
Record chat_request := {
  model : pystr;
  temperature : pyfloat;
  messages : list (pystr * pystr)   (* role, content *)
}.

(** What [create] gives back, as far as the handler reads it: the
    [message.content] of each element of [choices]. *)
Definition completion := list (option pystr).

Inductive log_level := INFO | ERROR | EXCEPTION.

Inductive log_arg :=
| ArgInt (n : nat)
| ArgStr (s : pystr)
| ArgKeys (ks : list pystr).

Inductive event :=
| Log (lvl : log_level) (fmt : string) (args : list log_arg)
| ApiCall (req : chat_request).

Definition trace := list event.

(** A computation reads the events so far, adds its own, and returns or
    raises. *)
Definition M (A : Type) := trace -> outcome A * trace.

Definition ret {A} (a : A) : M A := fun t => (Returns a, t).

Definition raise {A} (e : exn) : M A := fun t => (Raises e, t).

Definition bind {A B} (c : M A) (k : A -> M B) : M B :=
  fun t =>
    match c t with
    | (Returns a, t') => k a t'
    | (Raises e, t') => (Raises e, t')
    end.

(** [try: c  except <sel>: h] *)
Definition try_except {A} (c : M A) (sel : exn -> bool) (h : exn -> M A)
  : M A :=
  fun t =>
    match c t with
    | (Returns a, t') => (Returns a, t')
    | (Raises e, t') => if sel e then h e t' else (Raises e, t')
    end.

Definition emit (ev : event) : M unit := fun t => (Returns tt, t ++ [ev]).

Definition lift {A} (o : outcome A) : M A := fun t => (o, t).

Declare Scope py_scope.
Delimit Scope py_scope with py_do.
Notation "x <- c ;; k" := (bind c (fun x => k))
  (at level 61, c at next level, right associativity) : py_scope.
Notation "c ;; k" := (bind c (fun _ => k))
  (at level 61, right associativity) : py_scope.
Local Open Scope py_scope.

(** ** A reference [json.loads]

    The decoder of CPython 3.11 ([json.decoder], [json.scanner] and the
    string scanner of [_json]) on a [str] argument with the default
    options.  Positions are indices into the whole document; a scanning
    function receives the text still to read and the index of its first
    character.  The interpreter's resource limits (recursion depth,
    length of integer literals) are not part of it. *)

Module RefJson.

(** How a scan ends without a value: the [StopIteration] of
    [_scan_once], a [JSONDecodeError] in the making, or the fuel of the
    recursion used up. *)
Inductive scan_error :=
| StopIteration (idx : nat)
| DecodeError (msg : string) (pos : nat)
| Exhausted.

Inductive scan (A : Type) :=
| Scanned (a : A) (rest : pystr) (pos : nat)
| Failed (e : scan_error).
Arguments Failed {A} e.

(** [WHITESPACE_STR = ' \t\n\r'] *)
Definition is_ws (c : N) : bool :=
  ((c =? 32) || (c =? 9) || (c =? 10) || (c =? 13))%N.

(** [_w(s, end).end()] *)
Fixpoint skip_ws (s : pystr) (pos : nat) : pystr * nat :=
  match s with
  | c :: s' => if is_ws c then skip_ws s' (S pos) else (s, pos)
  | [] => ([], pos)
  end.

Definition is_digit (c : N) : bool := ((48 <=? c) && (c <=? 57))%N.

Definition hex_digit (c : N) : option N :=
  (if (48 <=? c) && (c <=? 57) then Some (c - 48)
   else if (97 <=? c) && (c <=? 102) then Some (c - 87)
   else if (65 <=? c) && (c <=? 70) then Some (c - 55)
   else None)%N.

(** The four hexadecimal digits of a [\uXXXX] escape. *)
Definition hex4 (s : pystr) : option N :=
  match s with
  | a :: b :: c :: d :: _ =>
      match hex_digit a, hex_digit b, hex_digit c, hex_digit d with
      | Some x, Some y, Some z, Some w =>
          Some (((x * 16 + y) * 16 + z) * 16 + w)%N
      | _, _, _, _ => None
      end
  | _ => None
  end.

Definition is_high_surrogate (c : N) : bool :=
  ((55296 <=? c) && (c <=? 56319))%N.
Definition is_low_surrogate (c : N) : bool :=
  ((56320 <=? c) && (c <=? 57343))%N.
Definition join_surrogates (hi lo : N) : N :=
  (65536 + ((hi - 55296) * 1024 + (lo - 56320)))%N.

(** The character a one-letter escape stands for. *)
Definition simple_escape (c : N) : option N :=
  (if c =? 34 then Some 34          (* quote *)
   else if c =? 92 then Some 92     (* backslash *)
   else if c =? 47 then Some 47     (* solidus *)
   else if c =? 98 then Some 8      (* b *)
   else if c =? 102 then Some 12    (* f *)
   else if c =? 110 then Some 10    (* n *)
   else if c =? 114 then Some 13    (* r *)
   else if c =? 116 then Some 9     (* t *)
   else None)%N.

(** [scanstring(s, end, strict=True)]: [s] starts after the opening
    quote, at index [pos]; [begin] is the index of that quote; [acc]
    holds the decoded characters, last first. *)
Fixpoint scanstring (fuel : nat) (s : pystr) (pos begin : nat)
  (acc : pystr) : scan pystr :=
  match fuel with
  | O => Failed Exhausted
  | S fuel' =>
      match s with
      | [] => Failed (DecodeError "Unterminated string starting at" begin)
      | c :: s1 =>
          if (c =? 34)%N then Scanned (rev acc) s1 (S pos)
          else if (c =? 92)%N then
            match s1 with
            | [] =>
                Failed (DecodeError "Unterminated string starting at" begin)
            | e :: s2 =>
                if (e =? 117)%N then
                  if List.length s2 <=? 4 then
                    Failed (DecodeError "Invalid \uXXXX escape" (pos + 1))
                  else
                    match hex4 s2 with
                    | None =>
                        Failed
                          (DecodeError "Invalid \uXXXX escape" (pos + 1))
                    | Some u =>
                        let s3 := skipn 4 s2 in
                        let lone :=
                          scanstring fuel' s3 (pos + 6) begin (u :: acc) in
                        if is_high_surrogate u && (6 <? List.length s3) then
                          match s3 with
                          | b :: v :: s4 =>
                              if ((b =? 92) && (v =? 117))%N then
                                match hex4 s4 with
                                | None =>
                                    Failed
                                      (DecodeError "Invalid \uXXXX escape"
                                         (pos + 7))
                                | Some u2 =>
                                    if is_low_surrogate u2 then
                                      scanstring fuel' (skipn 4 s4)
                                        (pos + 12) begin
                                        (join_surrogates u u2 :: acc)
                                    else lone
                                end
                              else lone
                          | _ => lone
                          end
                        else lone
                    end
                else
                  match simple_escape e with
                  | Some x => scanstring fuel' s2 (pos + 2) begin (x :: acc)
                  | None => Failed (DecodeError "Invalid \escape" pos)
                  end
            end
          else if (c <=? 31)%N then
            Failed (DecodeError "Invalid control character at" pos)
          else scanstring fuel' s1 (S pos) begin (c :: acc)
      end
  end.

(** [s[idx:idx + len(lit)] == lit] *)
Fixpoint startswith (lit s : pystr) : bool :=
  match lit, s with
  | [], _ => true
  | a :: lit', b :: s' => N.eqb a b && startswith lit' s'
  | _ :: _, [] => false
  end.

(** The longest run of decimal digits at the head of [s]. *)
Fixpoint take_digits (s : pystr) : pystr * pystr :=
  match s with
  | c :: s' =>
      if is_digit c then
        let (ds, rest) := take_digits s' in (c :: ds, rest)
      else ([], s)
  | [] => ([], [])
  end.

(** [int(digits)] for a run of decimal digits. *)
Definition int_of_digits (ds : pystr) : Z :=
  fold_left (fun acc c => (acc * 10 + Z.of_N (c - 48))%Z) ds 0%Z.

(** [float(text)] for the decimal [m * 10^k], [m >= 0], with the sign
    given apart: the binary64 number nearest to it, ties to even.  For a
    negative exponent the quotient is cut with 64 bits or more and a
    sticky bit before the one rounding. *)
Definition float_of_decimal (neg : bool) (m k : Z) : pyfloat :=
  match m with
  | Zpos _ =>
      if (0 <=? k)%Z then
        binary_round 53 1024 neg (Z.to_pos (m * 10 ^ k)) 0
      else
        let d := (10 ^ (- k))%Z in
        let sh := (Z.log2 d + 64)%Z in
        let n := (m * 2 ^ sh)%Z in
        let sticky := if (n mod d =? 0)%Z then 0%Z else 1%Z in
        binary_round 53 1024 neg (Z.to_pos (2 * (n / d) + sticky))
          (- sh - 1)
  | _ => S754_zero neg
  end.

(** The pieces of [NUMBER_RE]: an optional minus sign, *)
Definition take_sign (s : pystr) : bool * pystr :=
  match s with
  | c :: s' => if (c =? 45)%N then (true, s') else (false, s)
  | [] => (false, s)
  end.

(** the integer part: a lone zero, or digits of which the first is not
    zero, *)
Definition take_int (s : pystr) : option (pystr * pystr) :=
  match s with
  | c :: s' =>
      if (c =? 48)%N then Some ([c], s')
      else if is_digit c then Some (take_digits s)
      else None
  | [] => None
  end.

(** the fraction: a dot and one digit or more, given without the dot, *)
Definition take_frac (s : pystr) : pystr * pystr :=
  match s with
  | dot :: c :: _ =>
      if ((dot =? 46) && is_digit c)%N then take_digits (tl s) else ([], s)
  | _ => ([], s)
  end.

(** and the exponent: [e] or [E], an optional sign and one digit or
    more, given as a number. *)
Definition take_exp (s : pystr) : option (Z * pystr) :=
  match s with
  | e :: s1 =>
      if ((e =? 101) || (e =? 69))%N then
        let (eneg, s2) :=
          match s1 with
          | sg :: s' =>
              if (sg =? 45)%N then (true, s')
              else if (sg =? 43)%N then (false, s')
              else (false, s1)
          | [] => (false, s1)
          end in
        match take_digits s2 with
        | ([], _) => None
        | (eds, s3) =>
            let x := int_of_digits eds in
            Some (if eneg then (- x)%Z else x, s3)
        end
      else None
  | [] => None
  end.

(** [NUMBER_RE.match(s, idx)] with the conversion [_scan_once] applies:
    the value and what is left of the text. *)
Definition match_number (s : pystr) : option (json * pystr) :=
  let (neg, s1) := take_sign s in
  match take_int s1 with
  | None => None
  | Some (ds, s2) =>
      let (frac, s3) := take_frac s2 in
      match frac, take_exp s3 with
      | [], None =>
          let z := int_of_digits ds in
          Some (JInt (if neg then (- z)%Z else z), s3)
      | _, None =>
          Some (JFloat (float_of_decimal neg (int_of_digits (ds ++ frac))
                          (- Z.of_nat (List.length frac))), s3)
      | _, Some (x, s4) =>
          Some (JFloat (float_of_decimal neg (int_of_digits (ds ++ frac))
                          (x - Z.of_nat (List.length frac))), s4)
      end
  end.

Definition PROPERTY_NAME : string :=
  "Expecting property name enclosed in double quotes".

(** The part of [JSONObject] before its loop; [s] starts after the
    opening brace. *)
Definition JSONObject
  (loop : pystr -> nat -> list (pystr * json) -> scan json)
  (s : pystr) (pos : nat) : scan json :=
  let (s1, p1) := skip_ws s pos in
  match s1 with
  | c :: s2 =>
      if (c =? 125)%N then Scanned (JObj []) s2 (S p1)
      else if (c =? 34)%N then loop s2 (S p1) []
      else
        Failed (DecodeError PROPERTY_NAME p1)
  | [] =>
      Failed (DecodeError PROPERTY_NAME p1)
  end.

(** The part of [JSONArray] before its loop; [s] starts after the
    opening bracket. *)
Definition JSONArray
  (loop : pystr -> nat -> list json -> scan json)
  (s : pystr) (pos : nat) : scan json :=
  let (s1, p1) := skip_ws s pos in
  match s1 with
  | c :: s2 =>
      if (c =? 93)%N then Scanned (JArr []) s2 (S p1) else loop s1 p1 []
  | [] => loop s1 p1 []
  end.

(** [StopIteration] out of [scan_once] inside a container. *)
Definition expecting_value {A} (e : scan_error) : scan A :=
  match e with
  | StopIteration idx => Failed (DecodeError "Expecting value" idx)
  | _ => Failed e
  end.

(** [_scan_once], with the loops of [JSONObject] and [JSONArray].
    [object_loop] starts after the opening quote of a key, [array_loop]
    at an element; [pairs] and [values] are kept last first. *)
Fixpoint scan_once (fuel : nat) (s : pystr) (pos : nat) {struct fuel}
  : scan json :=
  match fuel with
  | O => Failed Exhausted
  | S f =>
      match s with
      | [] => Failed (StopIteration pos)
      | c :: s1 =>
          if (c =? 34)%N then
            match scanstring (S (List.length s1)) s1 (S pos) pos [] with
            | Scanned a r p => Scanned (JStr a) r p
            | Failed e => Failed e
            end
          else if (c =? 123)%N then JSONObject (object_loop f) s1 (S pos)
          else if (c =? 91)%N then JSONArray (array_loop f) s1 (S pos)
          else if startswith (py "null") s then
            Scanned JNull (skipn 4 s) (pos + 4)
          else if startswith (py "true") s then
            Scanned (JBool true) (skipn 4 s) (pos + 4)
          else if startswith (py "false") s then
            Scanned (JBool false) (skipn 5 s) (pos + 5)
          else
            match match_number s with
            | Some (v, rest) =>
                Scanned v rest (pos + (List.length s - List.length rest))
            | None =>
                if startswith (py "NaN") s then
                  Scanned (JFloat S754_nan) (skipn 3 s) (pos + 3)
                else if startswith (py "Infinity") s then
                  Scanned (JFloat (S754_infinity false)) (skipn 8 s)
                    (pos + 8)
                else if startswith (py "-Infinity") s then
                  Scanned (JFloat (S754_infinity true)) (skipn 9 s)
                    (pos + 9)
                else Failed (StopIteration pos)
            end
      end
  end

with object_loop (fuel : nat) (s : pystr) (pos : nat)
  (pairs : list (pystr * json)) {struct fuel} : scan json :=
  match fuel with
  | O => Failed Exhausted
  | S f =>
      match scanstring (S (List.length s)) s pos (pos - 1) [] with
      | Failed e => Failed e
      | Scanned key s1 p1 =>
          let (s2, p2) := skip_ws s1 p1 in
          match s2 with
          | colon :: s3 =>
              if (colon =? 58)%N then
                let (s4, p4) := skip_ws s3 (S p2) in
                match scan_once f s4 p4 with
                | Failed e => expecting_value e
                | Scanned value s5 p5 =>
                    let pairs' := (key, value) :: pairs in
                    let (s6, p6) := skip_ws s5 p5 in
                    match s6 with
                    | d :: s7 =>
                        if (d =? 125)%N then
                          Scanned (JObj (dict_of_pairs (rev pairs'))) s7
                            (S p6)
                        else if (d =? 44)%N then
                          let (s8, p8) := skip_ws s7 (S p6) in
                          match s8 with
                          | q :: s9 =>
                              if (q =? 34)%N then
                                object_loop f s9 (S p8) pairs'
                              else
                                Failed (DecodeError PROPERTY_NAME p8)
                          | [] =>
                              Failed (DecodeError PROPERTY_NAME p8)
                          end
                        else
                          Failed (DecodeError "Expecting ',' delimiter" p6)
                    | [] =>
                        Failed (DecodeError "Expecting ',' delimiter" p6)
                    end
                end
              else Failed (DecodeError "Expecting ':' delimiter" p2)
          | [] => Failed (DecodeError "Expecting ':' delimiter" p2)
          end
      end
  end

with array_loop (fuel : nat) (s : pystr) (pos : nat) (values : list json)
  {struct fuel} : scan json :=
  match fuel with
  | O => Failed Exhausted
  | S f =>
      match scan_once f s pos with
      | Failed e => expecting_value e
      | Scanned value s1 p1 =>
          let values' := value :: values in
          let (s2, p2) := skip_ws s1 p1 in
          match s2 with
          | d :: s3 =>
              if (d =? 93)%N then Scanned (JArr (rev values')) s3 (S p2)
              else if (d =? 44)%N then
                let (s4, p4) := skip_ws s3 (S p2) in
                array_loop f s4 p4 values'
              else Failed (DecodeError "Expecting ',' delimiter" p2)
          | [] => Failed (DecodeError "Expecting ',' delimiter" p2)
          end
      end
  end.

(** The characters of a reversed prefix up to its first line feed:
    those after the last line feed of the prefix. *)
Fixpoint last_line_rev (r : pystr) : pystr :=
  match r with
  | c :: r' => if N.eqb c LF then [] else c :: last_line_rev r'
  | [] => []
  end.

(** Decimal text of a natural number, as [%d] prints it. *)
Definition dec (n : nat) : pystr :=
  py (DecimalString.NilEmpty.string_of_uint (Nat.to_uint n)).

(** [str(JSONDecodeError(msg, doc, pos))] *)
Definition errmsg (msg : string) (doc : pystr) (pos : nat) : pystr :=
  let before := firstn pos doc in
  let lineno := S (List.length (filter (N.eqb LF) before)) in
  let colno := S (List.length (last_line_rev (rev before))) in
  py msg ++ py ": line " ++ dec lineno ++ py " column " ++ dec colno
    ++ py " (char " ++ dec pos ++ py ")".

(** [JSONDecoder.decode].  A call of [scan_once] or of a loop is made
    after at least one more character was read, or by a loop whose
    caller read one, so twice the length of the text bounds the depth
    and the last case below is never met. *)
Definition decode (s : pystr) : outcome json :=
  let (s0, p0) := skip_ws s 0 in
  match scan_once (2 * List.length s + 2) s0 p0 with
  | Scanned v rest p =>
      let (r1, p1) := skip_ws rest p in
      match r1 with
      | [] => Returns v
      | _ :: _ => Raises (JSONDecodeError (errmsg "Extra data" s p1))
      end
  | Failed (StopIteration idx) =>
      Raises (JSONDecodeError (errmsg "Expecting value" s idx))
  | Failed (DecodeError msg pos) =>
      Raises (JSONDecodeError (errmsg msg s pos))
  | Failed Exhausted =>
      Raises (OtherException "RecursionError"
                (py "maximum recursion depth exceeded"))
  end.

(** [json.loads(s)] for a [str]. *)
Definition loads (s : pystr) : outcome json :=
  match s with
  | c :: _ =>
      if (c =? 65279)%N then
        Raises (JSONDecodeError
                  (errmsg "Unexpected UTF-8 BOM (decode using utf-8-sig)"
                     s 0))
      else decode s
  | [] => decode s
  end.

(** The scan left less text than it was given. *)
Definition shorter {A} (r : scan A) (s : pystr) : Prop :=
  match r with
  | Scanned _ rest _ => List.length rest < List.length s
  | Failed _ => True
  end.

End RefJson.

(** ** backend1.py *)

(** [RUBRIC] *)
Definition RUBRIC : pystr :=
  py "You are a strict TOEFL Writing grader." ++ [LF]
  ++ py "Rate on 5 dimensions from 1-5: task_response, organization, language_use, development, mechanics."
  ++ [LF]
  ++ py "Compute overall_score (1-5) as the rounded average." ++ [LF]
  ++ py "Return ONLY a compact JSON object with keys:" ++ [LF]
  ++ py "task_response, organization, language_use, development, mechanics, overall_score, concise_rationale."
  ++ [LF]
  ++ py "concise_rationale must be 1-2 sentences, actionable." ++ [LF]
  ++ py "Be consistent across essays of varying length; do not reward length alone."
  ++ [LF].

(** Lower-case hexadecimal text of [c] on [width] digits. *)
Fixpoint hex_fixed (width : nat) (c : N) : pystr :=
  match width with
  | O => []
  | S w =>
      let d := (c mod 16)%N in
      hex_fixed w (c / 16)%N
        ++ [if (d <? 10)%N then (48 + d)%N else (87 + d)%N]
  end.

(** One character under [encode("ascii", "backslashreplace")]. *)
Definition backslashreplace (c : N) : pystr :=
  if (c <? 128)%N then [c]
  else if (c <? 256)%N then py "\x" ++ hex_fixed 2 c
  else if (c <? 65536)%N then py "\u" ++ hex_fixed 4 c
  else py "\U" ++ hex_fixed 8 c.

(** [ascii_safe_preview(s, limit=120)] *)
Definition ascii_safe_preview (s : pystr) : pystr :=
  let limit := 120 in
  let preview :=
    firstn limit s ++ (if limit <? List.length s then py "..." else []) in
  flat_map backslashreplace preview.

(** A response of the endpoint: [return jsonify(body), status]. *)
Record response := {
  body : json;
  status : N
}.

Definition jsonify (v : json) (code : N) : response :=
  {| body := v; status := code |}.

(** The float that the literal [0.2] denotes. *)
Definition TEMPERATURE : pyfloat := S754_finite false 7205759403792794 (-55).

(** The set [required] of the handler. *)
Definition required : list pystr :=
  [py "task_response"; py "organization"; py "language_use";
   py "development"; py "mechanics"; py "overall_score";
   py "concise_rationale"].

(** [k in keys] *)
Definition key_in (keys : list pystr) (k : pystr) : bool :=
  existsb (pystr_eqb k) keys.

(** [a.issubset(keys)] *)
Definition issubset (a keys : list pystr) : bool := forallb (key_in keys) a.

Definition no_attribute (v : json) (attr : string) : exn :=
  AttributeError
    (py "'" ++ py (type_name v) ++ py "' object has no attribute '"
       ++ py attr ++ py "'").

(** [data.get(k)] *)
Definition attr_get (data : json) (k : pystr) : M json :=
  match data with
  | JObj d =>
      ret (match dict_lookup k d with Some v => v | None => JNull end)
  | _ => raise (no_attribute data "get")
  end.

(** [v.strip()] *)
Definition attr_strip (v : json) : M pystr :=
  match v with
  | JStr s => ret (strip s)
  | _ => raise (no_attribute v "strip")
  end.

(** [v.keys()] *)
Definition attr_keys (v : json) : M (list pystr) :=
  match v with
  | JObj d => ret (map fst d)
  | _ => raise (no_attribute v "keys")
  end.

(** [resp.choices[0].message.content] *)
Definition first_choice_content (resp : completion) : M (option pystr) :=
  match resp with
  | c :: _ => ret c
  | [] => raise (IndexError (py "list index out of range"))
  end.

Definition logger_info (fmt : string) (args : list log_arg) : M unit :=
  emit (Log INFO fmt args).
Definition logger_error (fmt : string) (args : list log_arg) : M unit :=
  emit (Log ERROR fmt args).
Definition logger_exception (fmt : string) (args : list log_arg) : M unit :=
  emit (Log EXCEPTION fmt args).

(** [{"error": msg}] *)
Definition error_body_of (msg : pystr) : json :=
  JObj [(py "error", JStr msg)].

Definition error_body (msg : string) : json := error_body_of (py msg).

(** [{"error": msg, "raw": raw}] *)
Definition error_raw_body (msg : string) (raw : json) : json :=
  JObj [(py "error", JStr (py msg)); (py "raw", raw)].

(** The user message built from the essay. *)
Definition user_prompt (essay : pystr) : pystr :=
  py "Essay:" ++ [LF]
  ++ ([DQUOTE; DQUOTE; DQUOTE] ++ essay ++ [DQUOTE; DQUOTE; DQUOTE]
        ++ [LF; LF])
  ++ py "Respond with ONLY JSON, no extra text." ++ [LF].

Definition grade_request (essay : pystr) : chat_request :=
  {| model := py "gpt-4o-mini";
     temperature := TEMPERATURE;
     messages := [(py "system", RUBRIC); (py "user", user_prompt essay)] |}.

Section Handler.

(** [json.loads] *)
Variable json_loads : pystr -> outcome json.

(** [client.chat.completions.create]: the answer of the API to a
    request, or the exception the client raises. *)
Variable create : chat_request -> outcome completion.

Definition chat_completions_create (req : chat_request) : M completion :=
  emit (ApiCall req) ;; lift (create req).

(** The inner [try] of the handler (lines 108 to 115): either the
    response of its early [return], or the value bound to [result]. *)
Definition parse_reply (text : pystr) : M (response + json) :=
  try_except
    (result <- lift (json_loads text) ;; ret (inr result))
    is_JSONDecodeError
    (fun _ =>
       match re_search BRACE_SPAN text with
       | None =>
           logger_error "Model returned non-JSON; preview: %s"
             [ArgStr (ascii_safe_preview text)] ;;
           ret (inl (jsonify
                       (error_raw_body "Model returned non-JSON response"
                          (JStr text)) 502))
       | Some span => result <- lift (json_loads span) ;; ret (inr result)
       end).

(** Lines 117 to 125: the check of the required keys and the answer. *)
Definition validate_result (result : json) : M response :=
  keys <- attr_keys result ;;
  if negb (issubset required keys) then
    keys' <- attr_keys result ;;
    logger_error "Missing keys in model output: %s" [ArgKeys keys'] ;;
    ret (jsonify (error_raw_body "Missing keys in model output" result) 502)
  else ret (jsonify result 200).

(** Lines 108 to 125: what is left of the handler once the model has
    replied. *)
Definition resolve (text : pystr) : M response :=
  parsed <- parse_reply text ;;
  match parsed with
  | inl early => ret early
  | inr result => validate_result result
  end.

(** The body of the outer [try] of [grade], after its first call has
    returned: [payload] is the value that
    [request.get_json(force=True, silent=True)] returned, [JNull] when
    it silenced the [ValueError] of a body that does not decode.  The
    logger is taken to return on every record.  A call of [get_json]
    that raises and a logger that raises are in [grade_try_io] below. *)
Definition grade_try (payload : json) : M response :=
  let data := py_or payload (JObj []) in
  v <- attr_get data (py "essay") ;;
  essay <- attr_strip (py_or v (JStr [])) ;;
  match essay with
  | [] =>
      logger_info "Empty essay input" [] ;;
      ret (jsonify (error_body "Essay text required") 400)
  | _ :: _ =>
      logger_info "Received essay length: %d; preview: %s"
        [ArgInt (List.length essay); ArgStr (ascii_safe_preview essay)] ;;
      resp <- chat_completions_create (grade_request essay) ;;
      content <- first_choice_content resp ;;
      let text := strip (match content with Some s => s | None => [] end) in
      logger_info "Model output received; preview: %s"
        [ArgStr (ascii_safe_preview text)] ;;
      resolve text
  end.

(** The [except Exception as e] clause of [grade], for a logger that
    returns; [on_exception_io] below is the clause for any logger. *)
Definition on_exception (e : exn) : M response :=
  logger_exception "Unexpected error during grading: %s"
    [ArgStr (ascii_safe_preview (str_exn e))] ;;
  ret (jsonify (error_body_of (str_exn e)) 500).

(** [grade] *)
Definition grade (payload : json) : M response :=
  try_except (grade_try payload) (fun _ => true) on_exception.

End Handler.

(** [handle] runs the handler on a fresh trace. *)
Definition handle json_loads create (payload : json)
  : outcome response * trace :=
  grade json_loads create payload [].

(** The API requests of a trace, in order. *)
Fixpoint api_calls (t : trace) : list chat_request :=
  match t with
  | ApiCall req :: t' => req :: api_calls t'
  | Log _ _ _ :: t' => api_calls t'
  | [] => []
  end.

(** Writes a JSON text with ['] for the double quote. *)
Definition jtext (s : string) : pystr :=
  map (fun c => if (c =? 39)%N then DQUOTE else c) (py s).

(** ** Vocabulary of the statements *)

(** The request carries the essay [essay]: its body decodes to an object
    whose [essay] field is a string, and [essay] is that string
    trimmed.  This is the value bound to [essay] on line 83. *)
Definition Submits (payload : json) (essay : pystr) : Prop :=
  exists d s,
    payload = JObj d /\ dict_lookup (py "essay") d = Some (JStr s)
    /\ essay = strip s.

(** The requests the handler turns away on line 84: the decoded body is
    falsy ([None] for a body that does not decode), or an object whose
    [essay] is absent, falsy, or a string that trims to nothing. *)
Inductive NoEssay : json -> Prop :=
| NoEssay_body payload :
    truthy payload = false -> NoEssay payload
| NoEssay_absent d :
    dict_lookup (py "essay") d = None -> NoEssay (JObj d)
| NoEssay_falsy d v :
    dict_lookup (py "essay") d = Some v -> truthy v = false ->
    NoEssay (JObj d)
| NoEssay_blank d s :
    dict_lookup (py "essay") d = Some (JStr s) -> strip s = [] ->
    NoEssay (JObj d).


(** The text has a brace-delimited substring: an opening brace with a
    closing brace somewhere after it. *)
Definition brace_delimited (text : pystr) : Prop :=
  exists a m b, text = a ++ LBRACE :: m ++ RBRACE :: b.

(** The API answers the request for [essay], and [content] is what the
    handler reads from the first choice: [message.content or ""]. *)
Definition Replies (create : chat_request -> outcome completion)
  (essay content : pystr) : Prop :=
  exists c others,
    create (grade_request essay) = Returns (c :: others)
    /\ content = match c with Some s => s | None => [] end.

(** The reply text parses as JSON with value [v]: strictly, or through
    the brace span after a decoding error. *)
Definition Parses (json_loads : pystr -> outcome json) (text : pystr)
  (v : json) : Prop :=
  json_loads text = Returns v
  \/ exists msg span,
       json_loads text = Raises (JSONDecodeError msg)
       /\ re_search BRACE_SPAN text = Some span
       /\ json_loads span = Returns v.

(** An API client that fails on every request. *)
Definition unreachable_api : chat_request -> outcome completion :=
  fun _ => Raises (OtherException "APIConnectionError"
                     (py "Connection error.")).

(** An API that answers every request with one choice of content
    [reply]. *)
Definition canned (reply : pystr) : chat_request -> outcome completion :=
  fun _ => Returns [Some reply].

(** The request body [{"essay": essay}]. *)
Definition essay_request (essay : string) : json :=
  JObj [(py "essay", JStr (py essay))].

Definition is_object (v : json) : bool :=
  match v with JObj _ => true | _ => false end.

(** The events of a request that reached the model and got the text
    [text] (trimmed) back. *)
Definition trace_to_reply (essay text : pystr) : trace :=
  [Log INFO "Received essay length: %d; preview: %s"
     [ArgInt (List.length essay); ArgStr (ascii_safe_preview essay)];
   ApiCall (grade_request essay);
   Log INFO "Model output received; preview: %s"
     [ArgStr (ascii_safe_preview text)]].

(** ** Sample requests and replies *)

Definition weather : json := essay_request "The weather is nice.".





Definition not_json_message : pystr :=
  py "Expecting property name enclosed in double quotes: line 1 column 2 (char 1)".



Definition seven_scores : pydict :=
  [(py "task_response", JInt 3); (py "organization", JInt 3);
   (py "language_use", JInt 3); (py "development", JInt 3);
   (py "mechanics", JInt 3); (py "overall_score", JInt 3);
   (py "concise_rationale", JStr (py "Too short; needs development."))].

Definition extra_keys_reply : pystr :=
  jtext "{'model': 'm', 'task_response': 3, 'organization': 3, "
  ++ jtext "'language_use': 3, 'development': 3, 'mechanics': 3, "
  ++ jtext "'overall_score': 3, "
  ++ jtext "'concise_rationale': 'Too short; needs development.', "
  ++ jtext "'confidence': [1, 2]}".

Unset Implicit Arguments.

(** ** SafeStreamHandler *)

(** The code point is an ASCII character. *)
Definition is_ascii (c : N) : bool := (c <? 128)%N.


Definition UnicodeEncodeError (msg : pystr) : exn :=
  OtherException "UnicodeEncodeError" msg.

(** [isinstance(e, UnicodeEncodeError)] *)
Definition is_UnicodeEncodeError (e : exn) : bool :=
  match e with
  | OtherException cls _ => String.eqb cls "UnicodeEncodeError"
  | _ => false
  end.


(** A log record as [emit] reads it: what [self.format(record)] and
    [record.getMessage()] give for it. *)
Record log_record := {
  format_record : outcome pystr;
  getMessage : outcome pystr
}.

(** The first [try] of [emit]: the formatted record, or the bare message
    when formatting raises. *)
Definition record_text (r : log_record) : outcome pystr :=
  match format_record r with
  | Returns msg => Returns msg
  | Raises _ => getMessage r
  end.

(** [msg.encode("ascii", "backslashreplace").decode("ascii")] *)
Definition ascii_backslashreplace (msg : pystr) : pystr :=
  flat_map backslashreplace msg.

(** [StreamHandler.terminator] *)
Definition TERMINATOR : pystr := [LF].


(** ** The answers of the endpoint

    The forms a response of [grade] takes, each with the API requests
    made on the way and with what led to it. *)
Inductive Answer (json_loads : pystr -> outcome json)
  (create : chat_request -> outcome completion) (payload : json)
  : response -> list chat_request -> Prop :=
| Answer_no_essay :
    NoEssay payload ->
    Answer json_loads create payload
      (jsonify (error_body "Essay text required") 400) []
| Answer_bad_request (msg : pystr) :
    ~ NoEssay payload ->
    (forall essay, ~ Submits payload essay) ->
    Answer json_loads create payload (jsonify (error_body_of msg) 500) []
| Answer_failure (essay msg : pystr) :
    Submits payload essay -> essay <> [] ->
    Answer json_loads create payload (jsonify (error_body_of msg) 500)
      [grade_request essay]
| Answer_not_json (essay content msg : pystr) :
    Submits payload essay -> essay <> [] -> Replies create essay content ->
    json_loads (strip content) = Raises (JSONDecodeError msg) ->
    ~ brace_delimited (strip content) ->
    Answer json_loads create payload
      (jsonify
         (error_raw_body "Model returned non-JSON response"
            (JStr (strip content))) 502)
      [grade_request essay]
| Answer_missing_keys (essay content : pystr) (d : pydict) :
    Submits payload essay -> essay <> [] -> Replies create essay content ->
    Parses json_loads (strip content) (JObj d) ->
    issubset required (map fst d) = false ->
    Answer json_loads create payload
      (jsonify (error_raw_body "Missing keys in model output" (JObj d)) 502)
      [grade_request essay]
| Answer_graded (essay content : pystr) (d : pydict) :
    Submits payload essay -> essay <> [] -> Replies create essay content ->
    Parses json_loads (strip content) (JObj d) ->
    issubset required (map fst d) = true ->
    Answer json_loads create payload (jsonify (JObj d) 200)
      [grade_request essay].

(** A run of the body of the [try] is settled when what [grade] makes of
    it is an answer of the endpoint. *)
Definition Settled (json_loads : pystr -> outcome json)
  (create : chat_request -> outcome completion) (payload : json)
  (run : outcome response * trace) : Prop :=
  match run with
  | (Returns r, t) => Answer json_loads create payload r (api_calls t)
  | (Raises e, t) =>
      Answer json_loads create payload
        (jsonify (error_body_of (str_exn e)) 500) (api_calls t)
  end.

(** ** More sample inputs *)


(** The record of a message with one character outside ASCII (U+00E9). *)
Definition cafe_record : log_record :=
  {| format_record := Returns (py "caf" ++ [233%N]);
     getMessage := Returns (py "caf" ++ [233%N]) |}.




(** Two texts of 125 characters that differ after the 120th. *)
Definition long_text_a : pystr := repeat 97%N 120 ++ py "alpha".
Definition long_text_b : pystr := repeat 97%N 120 ++ py "gamma".

(** A request body with fields beside the essay. *)
Definition crowded_request : json :=
  JObj [(py "user", JStr (py "bob"));
        (py "essay", JStr (py "The weather is nice."));
        (py "lang", JStr (py "en"))].

(** ** The handler in its surroundings

    [grade] above starts from the value that [request.get_json] returned
    and logs to a sink that takes every record.  In the source the call
    of [get_json] is the first statement of the [try], and it can raise:
    [silent=True] silences the [ValueError] of a body that does not
    decode, nothing else.  The log goes through [SafeStreamHandler.emit],
    which lets the errors of the stream through, so every call of the
    logger can raise, the one of the [except] clause included.  The
    definitions below repeat the handler with both given. *)

Section Surroundings.

Variable json_loads : pystr -> outcome json.
Variable create : chat_request -> outcome completion.

(** What a call of the logger does with a record, given the events so
    far: it returns, or it raises what [emit] let through. *)
Variable sink : trace -> event -> outcome unit.

(** [logger.info], [logger.error] and [logger.exception] over [sink]: a
    record is in the trace when its call returned. *)
Definition logger_log (lvl : log_level) (fmt : string) (args : list log_arg)
  : M unit :=
  fun t =>
    match sink t (Log lvl fmt args) with
    | Returns _ => (Returns tt, t ++ [Log lvl fmt args])
    | Raises e => (Raises e, t)
    end.

(** Lines 108 to 115. *)
Definition parse_reply_io (text : pystr) : M (response + json) :=
  try_except
    (result <- lift (json_loads text) ;; ret (inr result))
    is_JSONDecodeError
    (fun _ =>
       match re_search BRACE_SPAN text with
       | None =>
           logger_log ERROR "Model returned non-JSON; preview: %s"
             [ArgStr (ascii_safe_preview text)] ;;
           ret (inl (jsonify
                       (error_raw_body "Model returned non-JSON response"
                          (JStr text)) 502))
       | Some span => result <- lift (json_loads span) ;; ret (inr result)
       end).

(** Lines 117 to 125. *)
Definition validate_result_io (result : json) : M response :=
  keys <- attr_keys result ;;
  if negb (issubset required keys) then
    keys' <- attr_keys result ;;
    logger_log ERROR "Missing keys in model output: %s" [ArgKeys keys'] ;;
    ret (jsonify (error_raw_body "Missing keys in model output" result) 502)
  else ret (jsonify result 200).

Definition resolve_io (text : pystr) : M response :=
  parsed <- parse_reply_io text ;;
  match parsed with
  | inl early => ret early
  | inr result => validate_result_io result
  end.

(** The body of the outer [try], from its first statement: [got] is what
    [request.get_json(force=True, silent=True)] does, the value it
    returns or the exception it raises. *)
Definition grade_try_io (got : outcome json) : M response :=
  payload <- lift got ;;
  let data := py_or payload (JObj []) in
  v <- attr_get data (py "essay") ;;
  essay <- attr_strip (py_or v (JStr [])) ;;
  match essay with
  | [] =>
      logger_log INFO "Empty essay input" [] ;;
      ret (jsonify (error_body "Essay text required") 400)
  | _ :: _ =>
      logger_log INFO "Received essay length: %d; preview: %s"
        [ArgInt (List.length essay); ArgStr (ascii_safe_preview essay)] ;;
      resp <- chat_completions_create create (grade_request essay) ;;
      content <- first_choice_content resp ;;
      let text := strip (match content with Some s => s | None => [] end) in
      logger_log INFO "Model output received; preview: %s"
        [ArgStr (ascii_safe_preview text)] ;;
      resolve_io text
  end.

(** The [except Exception as e] clause: the call of the logger comes
    first, and what it raises leaves the handler. *)
Definition on_exception_io (e : exn) : M response :=
  logger_log EXCEPTION "Unexpected error during grading: %s"
    [ArgStr (ascii_safe_preview (str_exn e))] ;;
  ret (jsonify (error_body_of (str_exn e)) 500).

(** [grade], as the view function of the route. *)
Definition grade_io (got : outcome json) : M response :=
  try_except (grade_try_io got) (fun _ => true) on_exception_io.

End Surroundings.

(** The record the [except] clause logs. *)
Definition is_exception_record (ev : event) : bool :=
  match ev with
  | Log EXCEPTION _ _ => true
  | _ => false
  end.

(** ** [emit] over any stream

    [SafeStreamHandler.emit] with the stream given by what its [write]
    and its [flush] do, each after the texts the stream has taken so
    far: they return, or raise an error of any class. *)
Section Emit.

Variable write : list pystr -> pystr -> outcome unit.
Variable flush : list pystr -> outcome unit.

Definition emit_on (r : log_record) (taken : list pystr)
  : outcome unit * list pystr :=
  match record_text r with
  | Raises e => (Raises e, taken)
  | Returns msg =>
      match write taken (msg ++ TERMINATOR) with
      | Returns _ =>
          (flush (taken ++ [msg ++ TERMINATOR]),
           taken ++ [msg ++ TERMINATOR])
      | Raises e =>
          if is_UnicodeEncodeError e then
            let safe := ascii_backslashreplace msg in
            match write taken (safe ++ TERMINATOR) with
            | Returns _ =>
                (flush (taken ++ [safe ++ TERMINATOR]),
                 taken ++ [safe ++ TERMINATOR])
            | Raises e' => (Raises e', taken)
            end
          else (Raises e, taken)
      end
  end.

End Emit.

(** ** Samples of the surroundings *)

(** A sink that takes every record. *)
Definition open_sink : trace -> event -> outcome unit :=
  fun _ _ => Returns tt.

(** The sink of a handler whose stream is a pipe nobody reads any more:
    [flush] raises for every record. *)
Definition broken_sink : trace -> event -> outcome unit :=
  fun _ _ => Raises (OtherException "BrokenPipeError"
                       (py "[Errno 32] Broken pipe")).

(** What [get_json] does with a body nested too deep for the decoder. *)
Definition deep_body : outcome json :=
  Raises (OtherException "RecursionError"
            (py "maximum recursion depth exceeded while decoding a JSON array from a unicode string")).

(** The [write] of a stream that encodes ASCII and nothing else, and a
    [flush] that returns. *)
Definition ascii_write : list pystr -> pystr -> outcome unit :=
  fun _ s =>
    if forallb is_ascii s then Returns tt
    else Raises (UnicodeEncodeError
                   (py "'ascii' codec can't encode characters")).

Definition flush_ok : list pystr -> outcome unit := fun _ => Returns tt.



(** ** The reference decoder is total

    Every scan leaves less text than it found, so the fuel [decode]
    starts with is never used up. *)

Module RefJsonFacts.
Import RefJson.

Lemma skip_ws_length (s : pystr) (pos : nat) :
  List.length (fst (skip_ws s pos)) <= List.length s.
Proof.
  revert pos; induction s as [|c s IH]; intros pos; cbn [skip_ws].
  - cbn. lia.
  - destruct (is_ws c); cbn [fst List.length];
      [specialize (IH (S pos)); lia|lia].
Qed.

Tactic Notation "ws_step" ident(s') ident(p') ident(L) :=
  match goal with
  | |- context [skip_ws ?s ?p] =>
      pose proof (skip_ws_length s p) as L;
      destruct (skip_ws s p) as [s' p']; cbn [fst] in L
  end.

Ltac split_if :=
  match goal with
  | |- context [if ?b then _ else _] => destruct b
  end.

Ltac shorter_by_skipn :=
  cbn [shorter]; rewrite length_skipn; cbn [List.length]; lia.

Lemma scanstring_progress (fuel : nat) :
  forall s pos begin acc a rest p,
    scanstring fuel s pos begin acc = Scanned a rest p ->
    List.length rest < List.length s.
Proof.
  induction fuel as [|fuel IH]; intros s pos begin acc a rest p;
    cbn [scanstring].
  - discriminate.
  - destruct s as [|c s1]; [discriminate|].
    destruct (c =? 34)%N.
    { intros H; injection H as _ <- _. cbn [List.length]. lia. }
    destruct (c =? 92)%N.
    2:{ destruct (c <=? 31)%N; [discriminate|].
        intros H; apply IH in H. cbn [List.length]. lia. }
    destruct s1 as [|e s2]; [discriminate|].
    cbn [List.length].
    destruct (e =? 117)%N.
    2:{ destruct (simple_escape e); [|discriminate].
        intros H; apply IH in H. lia. }
    destruct (List.length s2 <=? 4); [discriminate|].
    destruct (hex4 s2) as [u|]; [|discriminate].
    assert (L : forall a rest p pos acc,
               scanstring fuel (skipn 4 s2) pos begin acc = Scanned a rest p ->
               List.length rest < S (S (List.length s2))).
    { intros ? ? ? ? ? H. apply IH in H. rewrite length_skipn in H. lia. }
    destruct (is_high_surrogate u && (6 <? List.length (skipn 4 s2)));
      [|apply L].
    destruct (skipn 4 s2) as [|b [|v s4]] eqn:E; try apply L.
    destruct ((b =? 92) && (v =? 117))%N; [|apply L].
    destruct (hex4 s4) as [u2|]; [|discriminate].
    destruct (is_low_surrogate u2); [|apply L].
    intros H. apply IH in H. rewrite length_skipn in H.
    assert (E4 : List.length (skipn 4 s2) = S (S (List.length s4)))
      by (rewrite E; reflexivity).
    rewrite length_skipn in E4. lia.
Qed.

Lemma scanstring_fuel (fuel : nat) :
  forall s pos begin acc,
    List.length s < fuel ->
    scanstring fuel s pos begin acc <> Failed Exhausted.
Proof.
  induction fuel as [|fuel IH]; intros s pos begin acc Hf; [lia|].
  cbn [scanstring].
  destruct s as [|c s1]; [discriminate|]. cbn [List.length] in Hf.
  destruct (c =? 34)%N; [discriminate|].
  destruct (c =? 92)%N.
  2:{ destruct (c <=? 31)%N; [discriminate|]. apply IH. lia. }
  destruct s1 as [|e s2]; [discriminate|]. cbn [List.length] in Hf.
  destruct (e =? 117)%N.
  2:{ destruct (simple_escape e); [|discriminate]. apply IH. lia. }
  destruct (List.length s2 <=? 4); [discriminate|].
  destruct (hex4 s2) as [u|]; [|discriminate].
  assert (L : forall pos acc,
             scanstring fuel (skipn 4 s2) pos begin acc <> Failed Exhausted).
  { intros. apply IH. rewrite length_skipn. lia. }
  destruct (is_high_surrogate u && (6 <? List.length (skipn 4 s2)));
    [|apply L].
  destruct (skipn 4 s2) as [|b [|v s4]] eqn:E; try apply L.
  destruct ((b =? 92) && (v =? 117))%N; [|apply L].
  destruct (hex4 s4) as [u2|]; [|discriminate].
  destruct (is_low_surrogate u2); [|apply L].
  apply IH. rewrite length_skipn.
  assert (E4 : List.length (skipn 4 s2) = S (S (List.length s4)))
    by (rewrite E; reflexivity).
  rewrite length_skipn in E4. lia.
Qed.

Lemma take_digits_length (s : pystr) :
  List.length (snd (take_digits s)) <= List.length s.
Proof.
  induction s as [|c s IH]; cbn [take_digits]; [cbn; lia|].
  destruct (is_digit c); [|cbn; lia].
  destruct (take_digits s) as [ds rest]. cbn [snd List.length] in *. lia.
Qed.

Lemma take_sign_length (s : pystr) :
  List.length (snd (take_sign s)) <= List.length s.
Proof.
  destruct s as [|c s]; cbn [take_sign]; [cbn; lia|].
  destruct (c =? 45)%N; cbn [snd List.length]; lia.
Qed.

Lemma take_int_progress (s ds rest : pystr) :
  take_int s = Some (ds, rest) -> List.length rest < List.length s.
Proof.
  destruct s as [|c s]; cbn [take_int]; [discriminate|].
  destruct (c =? 48)%N.
  - intros H; injection H as _ <-. cbn [List.length]. lia.
  - destruct (is_digit c) eqn:D; [|discriminate].
    cbn [take_digits]. rewrite D.
    pose proof (take_digits_length s) as L.
    destruct (take_digits s) as [ds' rest']. cbn [snd] in L.
    intros H; injection H as _ <-. cbn [List.length]. lia.
Qed.

Lemma take_frac_length (s : pystr) :
  List.length (snd (take_frac s)) <= List.length s.
Proof.
  destruct s as [|dot [|c s]]; cbn [take_frac snd]; try lia.
  destruct ((dot =? 46)%N && is_digit c); cbn [snd]; [|lia].
  cbn [tl]. pose proof (take_digits_length (c :: s)).
  cbn [List.length] in *. lia.
Qed.

Lemma take_exp_length (s : pystr) (x : Z) (rest : pystr) :
  take_exp s = Some (x, rest) -> List.length rest <= List.length s.
Proof.
  destruct s as [|e s1]; cbn [take_exp]; [discriminate|].
  destruct ((e =? 101) || (e =? 69))%N; [|discriminate].
  cbn [List.length].
  destruct s1 as [|sg s'].
  - cbn [take_digits]. discriminate.
  - destruct (sg =? 45)%N; [|destruct (sg =? 43)%N];
      (pose proof (take_digits_length s') as L1;
       pose proof (take_digits_length (sg :: s')) as L2;
       match goal with
       | |- context [take_digits ?z] =>
           destruct (take_digits z) as [[|d ds] s3]
       end; [discriminate|];
       cbn [snd List.length] in *; intros H; injection H as _ <-; lia).
Qed.

Lemma match_number_progress (s : pystr) (v : json) (rest : pystr) :
  match_number s = Some (v, rest) -> List.length rest < List.length s.
Proof.
  unfold match_number.
  pose proof (take_sign_length s) as L1.
  destruct (take_sign s) as [neg s1]. cbn [snd] in L1.
  destruct (take_int s1) as [[ds s2]|] eqn:I; [|discriminate].
  apply take_int_progress in I.
  pose proof (take_frac_length s2) as L3.
  destruct (take_frac s2) as [frac s3]. cbn [snd] in L3.
  destruct (take_exp s3) as [[x s4]|] eqn:X.
  - apply take_exp_length in X.
    destruct frac; intros H; injection H as _ <-; lia.
  - destruct frac; intros H; injection H as _ <-; lia.
Qed.

Lemma shorter_expecting_value {A} (e : scan_error) (s : pystr) :
  shorter (@expecting_value A e) s.
Proof. destruct e; exact I. Qed.

(** Each of the three mutually recursive scans leaves less text than
    it was given. *)
Lemma scan_progress (f : nat) :
  (forall s pos, shorter (scan_once f s pos) s)
  /\ (forall s pos pairs, shorter (object_loop f s pos pairs) s)
  /\ (forall s pos values, shorter (array_loop f s pos values) s).
Proof.
  induction f as [|f (IHs & IHo & IHa)]; [repeat split; intros; exact I|].
  split; [|split].
  - intros s pos. cbn [scan_once].
    destruct s as [|c s1]; [exact I|].
    destruct (c =? 34)%N.
    { pose proof (scanstring_progress (S (List.length s1)) s1 (S pos) pos [])
        as P.
      destruct (scanstring (S (List.length s1)) s1 (S pos) pos []);
        [|exact I].
      cbn [shorter List.length]. specialize (P _ _ _ eq_refl). lia. }
    destruct (c =? 123)%N.
    { unfold JSONObject. ws_step s1' p1 L.
      destruct s1' as [|c' s2]; [exact I|].
      destruct (c' =? 125)%N; [cbn [shorter List.length] in *; lia|].
      destruct (c' =? 34)%N; [|exact I].
      specialize (IHo s2 (S p1) []).
      destruct (object_loop f s2 (S p1) []); [|exact I].
      cbn [shorter List.length] in *. lia. }
    destruct (c =? 91)%N.
    { unfold JSONArray. ws_step s1' p1 L.
      assert (G : shorter (array_loop f s1' p1 []) (c :: s1)).
      { specialize (IHa s1' p1 []).
        destruct (array_loop f s1' p1 []); [|exact I].
        cbn [shorter List.length] in *. lia. }
      destruct s1' as [|c' s2]; [exact G|].
      destruct (c' =? 93)%N; [cbn [shorter List.length] in *; lia|exact G]. }
    repeat (split_if; [shorter_by_skipn|]).
    destruct (match_number (c :: s1)) as [[v rest]|] eqn:E.
    { apply match_number_progress in E. exact E. }
    repeat (split_if; [shorter_by_skipn|]).
    exact I.
  - intros s pos pairs. cbn [object_loop].
    pose proof (scanstring_progress (S (List.length s)) s pos (pos - 1) [])
      as P.
    destruct (scanstring (S (List.length s)) s pos (pos - 1) [])
      as [key s1 p1|]; [|exact I].
    specialize (P _ _ _ eq_refl).
    ws_step s2 p2 L2. destruct s2 as [|colon s3]; [exact I|].
    destruct (colon =? 58)%N; [|exact I].
    ws_step s4 p4 L4.
    specialize (IHs s4 p4).
    destruct (scan_once f s4 p4) as [value s5 p5|e];
      [|apply shorter_expecting_value].
    ws_step s6 p6 L6. destruct s6 as [|d s7]; [exact I|].
    destruct (d =? 125)%N; [cbn [shorter List.length] in *; lia|].
    destruct (d =? 44)%N; [|exact I].
    ws_step s8 p8 L8. destruct s8 as [|q s9]; [exact I|].
    destruct (q =? 34)%N; [|exact I].
    specialize (IHo s9 (S p8) ((key, value) :: pairs)).
    destruct (object_loop f s9 (S p8) ((key, value) :: pairs)); [|exact I].
    cbn [shorter List.length] in *. lia.
  - intros s pos values. cbn [array_loop].
    specialize (IHs s pos).
    destruct (scan_once f s pos) as [value s1 p1|e];
      [|apply shorter_expecting_value].
    ws_step s2 p2 L2. destruct s2 as [|d s3]; [exact I|].
    destruct (d =? 93)%N; [cbn [shorter List.length] in *; lia|].
    destruct (d =? 44)%N; [|exact I].
    ws_step s4 p4 L4.
    specialize (IHa s4 p4 (value :: values)).
    destruct (array_loop f s4 p4 (value :: values)); [|exact I].
    cbn [shorter List.length] in *. lia.
Qed.

Lemma alive_expecting_value {A} (e : scan_error) :
  e <> Exhausted -> @expecting_value A e <> Failed Exhausted.
Proof. destruct e; intros H; try discriminate. now elim H. Qed.

(** With fuel for twice the text, no scan runs out of it. *)
Lemma scan_fuel (f : nat) :
  (forall s pos, 2 * List.length s + 1 <= f ->
     scan_once f s pos <> Failed Exhausted)
  /\ (forall s pos pairs, 2 * List.length s + 1 <= f ->
        object_loop f s pos pairs <> Failed Exhausted)
  /\ (forall s pos values, 2 * List.length s + 2 <= f ->
        array_loop f s pos values <> Failed Exhausted).
Proof.
  induction f as [|f (IHs & IHo & IHa)]; [repeat split; intros; lia|].
  destruct (scan_progress f) as (Ps & Po & Pa).
  split; [|split].
  - intros s pos Hf. cbn [scan_once].
    destruct s as [|c s1]; [discriminate|]. cbn [List.length] in Hf.
    destruct (c =? 34)%N.
    { pose proof (scanstring_fuel (S (List.length s1)) s1 (S pos) pos []
                    (Nat.lt_succ_diag_r _)) as P.
      destruct (scanstring (S (List.length s1)) s1 (S pos) pos []) as [|e];
        [discriminate|].
      intros H; injection H as ->. now elim P. }
    destruct (c =? 123)%N.
    { unfold JSONObject. ws_step s1' p1 L.
      destruct s1' as [|c' s2]; [discriminate|].
      destruct (c' =? 125)%N; [discriminate|].
      destruct (c' =? 34)%N; [|discriminate].
      apply IHo. cbn [List.length] in L. lia. }
    destruct (c =? 91)%N.
    { unfold JSONArray. ws_step s1' p1 L.
      assert (G : array_loop f s1' p1 [] <> Failed Exhausted)
        by (apply IHa; lia).
      destruct s1' as [|c' s2]; [exact G|].
      destruct (c' =? 93)%N; [discriminate|exact G]. }
    repeat (split_if; [discriminate|]).
    destruct (match_number (c :: s1)) as [[v rest]|]; [discriminate|].
    repeat (split_if; [discriminate|]).
    discriminate.
  - intros s pos pairs Hf. cbn [object_loop].
    pose proof (scanstring_progress (S (List.length s)) s pos (pos - 1) [])
      as P.
    pose proof (scanstring_fuel (S (List.length s)) s pos (pos - 1) []
                  (Nat.lt_succ_diag_r _)) as Q.
    destruct (scanstring (S (List.length s)) s pos (pos - 1) [])
      as [key s1 p1|e].
    2:{ intros H; injection H as ->. now elim Q. }
    specialize (P _ _ _ eq_refl).
    ws_step s2 p2 L2. destruct s2 as [|colon s3]; [discriminate|].
    destruct (colon =? 58)%N; [|discriminate].
    ws_step s4 p4 L4. cbn [List.length] in *.
    specialize (Ps s4 p4).
    assert (As : scan_once f s4 p4 <> Failed Exhausted) by (apply IHs; lia).
    destruct (scan_once f s4 p4) as [value s5 p5|e].
    2:{ apply alive_expecting_value. intros ->. now apply As. }
    cbn [shorter] in Ps.
    ws_step s6 p6 L6. destruct s6 as [|d s7]; [discriminate|].
    destruct (d =? 125)%N; [discriminate|].
    destruct (d =? 44)%N; [|discriminate].
    ws_step s8 p8 L8. destruct s8 as [|q s9]; [discriminate|].
    destruct (q =? 34)%N; [|discriminate].
    apply IHo. cbn [List.length] in *. lia.
  - intros s pos values Hf. cbn [array_loop].
    specialize (Ps s pos).
    assert (As : scan_once f s pos <> Failed Exhausted) by (apply IHs; lia).
    destruct (scan_once f s pos) as [value s1 p1|e].
    2:{ apply alive_expecting_value. intros ->. now apply As. }
    cbn [shorter] in Ps.
    ws_step s2 p2 L2. destruct s2 as [|d s3]; [discriminate|].
    destruct (d =? 93)%N; [discriminate|].
    destruct (d =? 44)%N; [|discriminate].
    ws_step s4 p4 L4.
    apply IHa. cbn [List.length] in *. lia.
Qed.

(** The decoder returns a value or raises a decoding error, and nothing
    else. *)
Theorem loads_total (s : pystr) :
  (exists v, loads s = Returns v)
  \/ (exists msg, loads s = Raises (JSONDecodeError msg)).
Proof.
  assert (D : (exists v, decode s = Returns v)
              \/ (exists msg, decode s = Raises (JSONDecodeError msg))).
  { unfold decode.
    pose proof (skip_ws_length s 0) as L.
    destruct (skip_ws s 0) as [s0 p0]. cbn [fst] in L.
    destruct (scan_fuel (2 * List.length s + 2)) as (F & _ & _).
    specialize (F s0 p0 ltac:(lia)).
    destruct (scan_once (2 * List.length s + 2) s0 p0)
      as [v rest p|[idx|msg pos|]].
    - destruct (skip_ws rest p) as [[|x r1] p1]; eauto.
    - eauto.
    - eauto.
    - now elim F. }
  unfold loads. destruct s as [|c s']; [exact D|].
  destruct (c =? 65279)%N; [eauto|exact D].
Qed.

End RefJsonFacts.

(** ** The brace pattern *)

Lemma match_rbrace_cons (x : N) (b : pystr) :
  match_here [Lit RBRACE] (x :: b) = if N.eqb x RBRACE then Some 1 else None.
Proof. cbn [match_here]. now destruct (N.eqb x RBRACE). Qed.

Lemma star_cons (k : pystr -> option nat) (x : N) (s : pystr) :
  star k (x :: s)
  = match star k s with Some n => Some (S n) | None => k (x :: s) end.
Proof. reflexivity. Qed.



Lemma star_rbrace_some (s : pystr) (n : nat) :
  star (match_here [Lit RBRACE]) s = Some n ->
  exists m b, s = m ++ RBRACE :: b.
Proof.
  revert n; induction s as [|x s IH]; intros n.
  - discriminate.
  - rewrite star_cons.
    destruct (star (match_here [Lit RBRACE]) s) as [k|] eqn:E.
    + intros _. destruct (IH k eq_refl) as (m & b & ->).
      now exists (x :: m), b.
    + rewrite match_rbrace_cons.
      destruct (N.eqb_spec x RBRACE) as [->|_]; [|discriminate].
      intros _. now exists [], s.
Qed.

Lemma match_brace_span_cons (x : N) (s : pystr) :
  match_here BRACE_SPAN (x :: s)
  = if N.eqb x LBRACE
    then option_map S (star (match_here [Lit RBRACE]) s)
    else None.
Proof. reflexivity. Qed.

Lemma re_search_cons (r : regex) (x : N) (s : pystr) :
  re_search r (x :: s)
  = match match_here r (x :: s) with
    | Some n => Some (firstn n (x :: s))
    | None => re_search r s
    end.
Proof. reflexivity. Qed.


Lemma re_search_brace_some (text span : pystr) :
  re_search BRACE_SPAN text = Some span -> brace_delimited text.
Proof.
  induction text as [|x text IH].
  - discriminate.
  - rewrite re_search_cons, match_brace_span_cons.
    destruct (N.eqb_spec x LBRACE) as [->|_].
    + destruct (star (match_here [Lit RBRACE]) text) as [n|] eqn:E.
      * intros _. destruct (star_rbrace_some _ _ E) as (m & b & ->).
        now exists [], m, b.
      * cbn [option_map]. intros H. destruct (IH H) as (a & m & b & ->).
        now exists (LBRACE :: a), m, b.
    + intros H. destruct (IH H) as (a & m & b & ->).
      now exists (x :: a), m, b.
Qed.


Lemma star_rbrace_in (s : pystr) :
  In RBRACE s -> star (match_here [Lit RBRACE]) s <> None.
Proof.
  induction s as [|x s IH]; intros H.
  - destruct H.
  - rewrite star_cons.
    destruct (star (match_here [Lit RBRACE]) s) as [n|] eqn:E;
      [discriminate|].
    destruct H as [->|H]; [|now elim (IH H)].
    rewrite match_rbrace_cons, N.eqb_refl. discriminate.
Qed.

(** The search succeeds exactly on the texts with a brace-delimited
    substring. *)
Lemma brace_delimited_search (text : pystr) :
  brace_delimited text <-> re_search BRACE_SPAN text <> None.
Proof.
  split.
  - intros (a & m & b & ->). induction a as [|x a IH].
    + cbn [app]. rewrite re_search_cons, match_brace_span_cons, N.eqb_refl.
      assert (I : In RBRACE (m ++ RBRACE :: b)) by apply in_elt.
      apply star_rbrace_in in I.
      destruct (star (match_here [Lit RBRACE]) (m ++ RBRACE :: b));
        [discriminate|contradiction].
    + cbn [app]. rewrite re_search_cons.
      destruct (match_here BRACE_SPAN (x :: a ++ LBRACE :: m ++ RBRACE :: b));
        [discriminate|exact IH].
  - intros H. destruct (re_search BRACE_SPAN text) as [span|] eqn:E;
      [|contradiction].
    eapply re_search_brace_some; eauto.
Qed.

(** ** Trimming *)






(** ** Dictionaries and key sets *)



Lemma dict_lookup_some_nonempty (k : pystr) (d : pydict) (v : json) :
  dict_lookup k d = Some v -> truthy (JObj d) = true.
Proof. destruct d; [discriminate|reflexivity]. Qed.

(** ** Events *)

Lemma api_calls_app (t1 t2 : trace) :
  api_calls (t1 ++ t2) = api_calls t1 ++ api_calls t2.
Proof.
  induction t1 as [|[l f a|r] t1 IH]; cbn [app api_calls].
  - reflexivity.
  - exact IH.
  - cbn [app]. now f_equal.
Qed.

Lemma api_calls_trace_to_reply (essay text : pystr) :
  api_calls (trace_to_reply essay text) = [grade_request essay].
Proof. reflexivity. Qed.

(** ** The handler, stage by stage *)

Section HandlerFacts.

Variable json_loads : pystr -> outcome json.
Variable create : chat_request -> outcome completion.

#[local] Abbreviation parse_reply := (parse_reply json_loads).
#[local] Abbreviation resolve := (resolve json_loads).
#[local] Abbreviation grade_try := (grade_try json_loads create).
#[local] Abbreviation grade := (grade json_loads create).
#[local] Abbreviation handle := (handle json_loads create).

(** Lines 82 to 106 for a request with an essay that the model answers:
    three events, then the reply is resolved. *)
Lemma grade_try_reply (payload : json) (essay content : pystr) (t : trace) :
  Submits payload essay -> essay <> [] -> Replies create essay content ->
  grade_try payload t
  = resolve (strip content) (t ++ trace_to_reply essay (strip content)).
Proof.
  intros (d & s & -> & Hl & ->) Hne (c0 & others & Hc & ->).
  unfold grade_try, py_or.
  rewrite (dict_lookup_some_nonempty _ _ _ Hl).
  cbv beta iota delta [bind attr_get ret]. rewrite Hl.
  assert (Hs : (if truthy (JStr s) then JStr s else JStr []) = JStr s)
    by (destruct s; reflexivity).
  rewrite Hs. cbv beta iota delta [attr_strip ret].
  destruct (strip s) as [|c e] eqn:E; [congruence|].
  cbv beta iota delta
    [bind logger_info emit chat_completions_create lift ret
       first_choice_content].
  rewrite Hc. unfold trace_to_reply.
  rewrite <- !app_assoc. reflexivity.
Qed.

(** The required-keys check on an object that has them all. *)
Lemma validate_result_complete (d : pydict) (t : trace) :
  issubset required (map fst d) = true ->
  validate_result (JObj d) t = (Returns (jsonify (JObj d) 200), t).
Proof.
  intros H. unfold validate_result, bind, attr_keys, ret. now rewrite H.
Qed.

(** The required-keys check on an object that lacks one. *)
Lemma validate_result_incomplete (d : pydict) (t : trace) :
  issubset required (map fst d) = false ->
  validate_result (JObj d) t
  = (Returns
       (jsonify (error_raw_body "Missing keys in model output" (JObj d)) 502),
     t ++ [Log ERROR "Missing keys in model output: %s"
             [ArgKeys (map fst d)]]).
Proof.
  intros H.
  unfold validate_result, bind, attr_keys, ret, logger_error, emit.
  now rewrite H.
Qed.

(** The required-keys check on anything but an object. *)
Lemma validate_result_non_object (v : json) (t : trace) :
  is_object v = false ->
  validate_result v t = (Raises (no_attribute v "keys"), t).
Proof. destruct v; (discriminate || reflexivity). Qed.

(** Strict parsing succeeds. *)
Lemma parse_reply_strict (text : pystr) (v : json) (t : trace) :
  json_loads text = Returns v -> parse_reply text t = (Returns (inr v), t).
Proof.
  intros H. unfold parse_reply, try_except, bind, lift, ret.
  now rewrite H.
Qed.

(** Strict parsing fails and the pattern matches: the span decides. *)
Lemma parse_reply_span (text span msg : pystr) (t : trace) :
  json_loads text = Raises (JSONDecodeError msg) ->
  re_search BRACE_SPAN text = Some span ->
  parse_reply text t
  = match json_loads span with
    | Returns v => (Returns (inr v), t)
    | Raises e => (Raises e, t)
    end.
Proof.
  intros H S. unfold parse_reply, try_except, bind, lift, ret.
  rewrite H. cbn [is_JSONDecodeError]. rewrite S.
  now destruct (json_loads span).
Qed.

(** Strict parsing fails and the pattern does not match. *)
Lemma parse_reply_no_span (text msg : pystr) (t : trace) :
  json_loads text = Raises (JSONDecodeError msg) ->
  re_search BRACE_SPAN text = None ->
  parse_reply text t
  = (Returns
       (inl (jsonify
               (error_raw_body "Model returned non-JSON response" (JStr text))
               502)),
     t ++ [Log ERROR "Model returned non-JSON; preview: %s"
             [ArgStr (ascii_safe_preview text)]]).
Proof.
  intros H S.
  unfold parse_reply, try_except, bind, lift, ret, logger_error,
    emit.
  rewrite H. cbn [is_JSONDecodeError]. now rewrite S.
Qed.

(** Strict parsing raises something else than a decoding error. *)
Lemma parse_reply_other (text : pystr) (e : exn) (t : trace) :
  json_loads text = Raises e -> is_JSONDecodeError e = false ->
  parse_reply text t = (Raises e, t).
Proof.
  intros H S. unfold parse_reply, try_except, bind, lift, ret.
  now rewrite H, S.
Qed.

(** The outer [try] turns a return into itself and a raise into the
    500 answer. *)
Lemma grade_unfold (payload : json) (t : trace) :
  grade payload t
  = match grade_try payload t with
    | (Returns r, t') => (Returns r, t')
    | (Raises e, t') =>
        (Returns (jsonify (error_body_of (str_exn e)) 500),
         t' ++ [Log EXCEPTION "Unexpected error during grading: %s"
                  [ArgStr (ascii_safe_preview (str_exn e))]])
    end.
Proof.
  unfold grade, try_except.
  destruct (grade_try payload t) as [[r|e] t']; reflexivity.
Qed.

(** [parse_reply] and [validate_result] add log records only. *)
Lemma parse_reply_api_calls (text : pystr) (t : trace) :
  api_calls (snd (parse_reply text t)) = api_calls t.
Proof.
  unfold parse_reply, try_except, bind, lift, ret, logger_error,
    emit.
  destruct (json_loads text) as [v|e]; [reflexivity|].
  destruct (is_JSONDecodeError e); [|reflexivity].
  destruct (re_search BRACE_SPAN text) as [span|].
  - now destruct (json_loads span).
  - cbn [snd]. rewrite api_calls_app. cbn [api_calls]. apply app_nil_r.
Qed.

Lemma validate_result_api_calls (v : json) (t : trace) :
  api_calls (snd (validate_result v t)) = api_calls t.
Proof.
  destruct v as [| | | | | |d]; try reflexivity.
  destruct (issubset required (map fst d)) eqn:E.
  - now rewrite validate_result_complete.
  - rewrite validate_result_incomplete by assumption.
    cbn [snd]. rewrite api_calls_app. cbn [api_calls]. apply app_nil_r.
Qed.

Lemma resolve_api_calls (text : pystr) (t : trace) :
  api_calls (snd (resolve text t)) = api_calls t.
Proof.
  unfold resolve, bind.
  pose proof (parse_reply_api_calls text t) as P.
  destruct (parse_reply text t) as [[[early|result]|e] t']; cbn [snd] in *.
  - exact P.
  - now rewrite validate_result_api_calls.
  - exact P.
Qed.

Lemma grade_api_calls (payload : json) (t : trace) :
  api_calls (snd (grade payload t)) = api_calls (snd (grade_try payload t)).
Proof.
  rewrite grade_unfold.
  destruct (grade_try payload t) as [[r|e] t']; cbn [snd]; [reflexivity|].
  rewrite api_calls_app. cbn [api_calls]. apply app_nil_r.
Qed.

End HandlerFacts.

(** ** Properties of the endpoint *)

Section Endpoint.

Variable json_loads : pystr -> outcome json.
Variable create : chat_request -> outcome completion.

#[local] Abbreviation parse_reply := (parse_reply json_loads).
#[local] Abbreviation resolve := (resolve json_loads).
#[local] Abbreviation grade_try := (grade_try json_loads create).
#[local] Abbreviation grade := (grade json_loads create).
#[local] Abbreviation handle := (handle json_loads create).

(** A request turned away on line 84 ends the body of the [try] at
    once. *)
Lemma grade_try_no_essay (payload : json) (t : trace) :
  NoEssay payload ->
  grade_try payload t
  = (Returns (jsonify (error_body "Essay text required") 400),
     t ++ [Log INFO "Empty essay input" []]).
Proof.
  intros H. unfold grade_try, py_or.
  destruct H as [payload F|d Hl|d v Hl F|d s Hl E].
  - rewrite F. reflexivity.
  - destruct d as [|kv d]; [reflexivity|]. cbn [truthy].
    cbv beta iota delta [bind attr_get ret]. rewrite Hl. reflexivity.
  - rewrite (dict_lookup_some_nonempty _ _ _ Hl).
    cbv beta iota delta [bind attr_get ret]. rewrite Hl, F. reflexivity.
  - rewrite (dict_lookup_some_nonempty _ _ _ Hl).
    cbv beta iota delta [bind attr_get ret]. rewrite Hl.
    destruct s as [|c s]; [reflexivity|]. cbn [truthy].
    cbv beta iota delta [attr_strip ret]. rewrite E. reflexivity.
Qed.


(** Whatever the request, the body of the [try] calls the API at most
    once. *)
Lemma grade_try_api_calls_le (payload : json) (t : trace) :
  List.length (api_calls (snd (grade_try payload t)))
  <= S (List.length (api_calls t)).
Proof.
  unfold grade_try.
  set (data := py_or payload (JObj [])).
  cbv beta iota delta [bind].
  assert (G : forall k,
             attr_get data k t = (Raises (no_attribute data "get"), t)
             \/ exists v, attr_get data k t = (Returns v, t)).
  { intros k. destruct data; try (left; reflexivity).
    right; eexists; reflexivity. }
  destruct (G (py "essay")) as [->|[v ->]]; [cbn [snd]; lia|].
  set (w := py_or v (JStr [])).
  assert (P : attr_strip w t = (Raises (no_attribute w "strip"), t)
              \/ exists e, attr_strip w t = (Returns e, t)).
  { destruct w; try (left; reflexivity). right; eexists; reflexivity. }
  destruct P as [->|[[|c e] ->]]; [cbn [snd]; lia| |].
  - cbn [logger_info emit ret snd]. rewrite api_calls_app. cbn [api_calls].
    rewrite app_nil_r. lia.
  - cbv beta iota delta
      [bind logger_info emit chat_completions_create lift ret raise
         first_choice_content].
    destruct (create (grade_request (c :: e))) as [[|content others]|ex];
      cbn [snd]; rewrite ?resolve_api_calls, !api_calls_app;
      cbn [api_calls]; rewrite !length_app; cbn [List.length]; lia.
Qed.

(** The exceptions the body of the [try] can meet, each answered by
    the outer [except] with 500 and its message. *)









(** Claim C4, what the code does.  When strict parsing of the trimmed
    reply fails, a brace span is found and the span fails to parse too,
    the second decoding error leaves the inner [try] and reaches the
    outer [except]: the handler answers 500 with the message of that
    error, not 502. *)
Theorem grade_unparsable_span_500
  (payload : json) (essay content span msg msg' : pystr) :
  Submits payload essay -> essay <> [] -> Replies create essay content ->
  json_loads (strip content) = Raises (JSONDecodeError msg) ->
  re_search BRACE_SPAN (strip content) = Some span ->
  json_loads span = Raises (JSONDecodeError msg') ->
  handle payload
  = (Returns {| body := JObj [(py "error", JStr msg')]; status := 500 |},
     trace_to_reply essay (strip content)
       ++ [Log EXCEPTION "Unexpected error during grading: %s"
             [ArgStr (ascii_safe_preview msg')]]).
Proof.
  intros Hs Hne Hr E S F. unfold handle.
  rewrite grade_unfold.
  rewrite (grade_try_reply _ _ payload essay content [] Hs Hne Hr).
  cbn [app]. unfold resolve, bind.
  now rewrite (parse_reply_span _ _ _ _ _ E S), F.
Qed.



(** With a logger that returns, the handler always returns a response:
    whatever the body of its [try] raises is answered with 500 and
    [{"error": str(e)}], what it returns is returned as it is, and the
    API is called at most once, so no failure is tried again. *)
Theorem grade_never_raises (payload : json) (t : trace) :
  (exists r t', grade payload t = (Returns r, t'))
  /\ grade payload t
     = match grade_try payload t with
       | (Returns r, t') => (Returns r, t')
       | (Raises e, t') =>
           (Returns {| body := JObj [(py "error", JStr (str_exn e))];
                       status := 500 |},
            t' ++ [Log EXCEPTION "Unexpected error during grading: %s"
                     [ArgStr (ascii_safe_preview (str_exn e))]])
       end
  /\ List.length (api_calls (snd (grade payload t)))
     <= S (List.length (api_calls t)).
Proof.
  split; [|split].
  - rewrite grade_unfold.
    destruct (grade_try payload t) as [[r|e] t']; eauto.
  - apply grade_unfold.
  - rewrite grade_api_calls. apply grade_try_api_calls_le.
Qed.




End Endpoint.

(** ** The handler in its surroundings *)

Section SurroundingsFacts.

Variable json_loads : pystr -> outcome json.
Variable create : chat_request -> outcome completion.
Variable sink : trace -> event -> outcome unit.

(** A call of the logger leaves the API requests of the trace as they
    are, whether it returns or raises. *)
Lemma logger_log_api_calls lvl fmt args (t : trace) :
  api_calls (snd (logger_log sink lvl fmt args t)) = api_calls t.
Proof.
  unfold logger_log. destruct (sink t (Log lvl fmt args)); cbn [snd].
  - rewrite api_calls_app. cbn [api_calls]. apply app_nil_r.
  - reflexivity.
Qed.

(** Over a sink that takes every record the logger is the one of
    [grade]. *)
Lemma logger_log_open lvl fmt args (t : trace) :
  (forall t' ev, sink t' ev = Returns tt) ->
  logger_log sink lvl fmt args t = emit (Log lvl fmt args) t.
Proof.
  intros O. unfold logger_log, emit. now rewrite O.
Qed.

Lemma parse_reply_io_open (text : pystr) (t : trace) :
  (forall t' ev, sink t' ev = Returns tt) ->
  parse_reply_io json_loads sink text t = parse_reply json_loads text t.
Proof.
  intros O.
  unfold parse_reply_io, parse_reply, try_except, bind, lift, ret,
    logger_error.
  destruct (json_loads text) as [v|e]; [reflexivity|].
  destruct (is_JSONDecodeError e); [|reflexivity].
  destruct (re_search BRACE_SPAN text) as [span|]; [reflexivity|].
  now rewrite logger_log_open.
Qed.

Lemma validate_result_io_open (v : json) (t : trace) :
  (forall t' ev, sink t' ev = Returns tt) ->
  validate_result_io sink v t = validate_result v t.
Proof.
  intros O. unfold validate_result_io, validate_result, bind, logger_error.
  destruct (attr_keys v t) as [[keys|e] t1]; [|reflexivity].
  destruct (negb (issubset required keys)); [|reflexivity].
  destruct (attr_keys v t1) as [[keys'|e] t2]; [|reflexivity].
  now rewrite logger_log_open.
Qed.

Lemma resolve_io_open (text : pystr) (t : trace) :
  (forall t' ev, sink t' ev = Returns tt) ->
  resolve_io json_loads sink text t = resolve json_loads text t.
Proof.
  intros O. unfold resolve_io, resolve, bind.
  rewrite parse_reply_io_open by assumption.
  destruct (parse_reply json_loads text t) as [[[early|result]|e] t1];
    [reflexivity| |reflexivity].
  now apply validate_result_io_open.
Qed.

(** [grade] is [grade_io] for a request whose [get_json] returned and a
    sink that takes every record. *)
Lemma grade_io_open (payload : json) (t : trace) :
  (forall t' ev, sink t' ev = Returns tt) ->
  grade_io json_loads create sink (Returns payload) t
  = grade json_loads create payload t.
Proof.
  intros O.
  assert (T : grade_try_io json_loads create sink (Returns payload) t
              = grade_try json_loads create payload t).
  { unfold grade_try_io, grade_try, bind, lift, logger_info.
    destruct (attr_get (py_or payload (JObj [])) (py "essay") t)
      as [[v|e] t1]; [|reflexivity].
    destruct (attr_strip (py_or v (JStr [])) t1) as [[essay|e] t2];
      [|reflexivity].
    destruct essay as [|c essay]; rewrite logger_log_open by assumption;
      [reflexivity|].
    destruct (emit _ t2) as [[[]|e] t3]; [|reflexivity].
    destruct (chat_completions_create create _ t3) as [[resp|e] t4];
      [|reflexivity].
    destruct (first_choice_content resp t4) as [[content|e] t5];
      [|reflexivity].
    rewrite logger_log_open by assumption.
    destruct (emit _ t5) as [[[]|e] t6]; [|reflexivity].
    now apply resolve_io_open. }
  unfold grade_io, grade, try_except. rewrite T.
  destruct (grade_try json_loads create payload t) as [[r|e] t1];
    [reflexivity|].
  unfold on_exception_io, on_exception, bind, logger_exception.
  now rewrite logger_log_open.
Qed.

Lemma parse_reply_io_api_calls (text : pystr) (t : trace) :
  api_calls (snd (parse_reply_io json_loads sink text t)) = api_calls t.
Proof.
  unfold parse_reply_io, try_except, bind, lift, ret.
  destruct (json_loads text) as [v|e]; [reflexivity|].
  destruct (is_JSONDecodeError e); [|reflexivity].
  destruct (re_search BRACE_SPAN text) as [span|].
  - now destruct (json_loads span).
  - pose proof (logger_log_api_calls ERROR
                  "Model returned non-JSON; preview: %s"
                  [ArgStr (ascii_safe_preview text)] t) as P.
    destruct (logger_log _ _ _ _ t) as [[[]|e'] t1]; exact P.
Qed.

Lemma validate_result_io_api_calls (v : json) (t : trace) :
  api_calls (snd (validate_result_io sink v t)) = api_calls t.
Proof.
  destruct v as [| | | | | |d]; try reflexivity.
  unfold validate_result_io, bind, attr_keys, ret.
  destruct (negb (issubset required (map fst d))); [|reflexivity].
  pose proof (logger_log_api_calls ERROR "Missing keys in model output: %s"
                [ArgKeys (map fst d)] t) as P.
  destruct (logger_log _ _ _ _ t) as [[[]|e'] t1]; exact P.
Qed.

Lemma resolve_io_api_calls (text : pystr) (t : trace) :
  api_calls (snd (resolve_io json_loads sink text t)) = api_calls t.
Proof.
  unfold resolve_io, bind.
  pose proof (parse_reply_io_api_calls text t) as P.
  destruct (parse_reply_io json_loads sink text t)
    as [[[early|result]|e] t']; cbn [snd] in *.
  - exact P.
  - now rewrite validate_result_io_api_calls.
  - exact P.
Qed.

(** The body of the [try] calls the API at most once. *)
Lemma grade_try_io_api_calls_le (got : outcome json) (t : trace) :
  List.length
    (api_calls (snd (grade_try_io json_loads create sink got t)))
  <= S (List.length (api_calls t)).
Proof.
  unfold grade_try_io.
  destruct got as [payload|e0]; [|cbn [bind lift snd]; lia].
  cbv beta iota delta [bind lift].
  set (data := py_or payload (JObj [])).
  assert (G : forall k,
             attr_get data k t = (Raises (no_attribute data "get"), t)
             \/ exists v, attr_get data k t = (Returns v, t)).
  { intros k. destruct data; try (left; reflexivity).
    right; eexists; reflexivity. }
  destruct (G (py "essay")) as [->|[v ->]]; [cbn [snd]; lia|].
  set (w := py_or v (JStr [])).
  assert (P : attr_strip w t = (Raises (no_attribute w "strip"), t)
              \/ exists e, attr_strip w t = (Returns e, t)).
  { destruct w; try (left; reflexivity). right; eexists; reflexivity. }
  destruct P as [->|[[|c e] ->]]; [cbn [snd]; lia| |].
  - pose proof (logger_log_api_calls INFO "Empty essay input" [] t) as L.
    destruct (logger_log _ _ _ _ t) as [[[]|e'] t1]; cbn [snd ret] in *;
      rewrite L; lia.
  - match goal with
    | |- context [logger_log sink ?l ?f ?a t] =>
        pose proof (logger_log_api_calls l f a t) as L;
        destruct (logger_log sink l f a t) as [[[]|e'] t1]
    end; cbn [snd] in L; [|cbn [snd]; rewrite L; lia].
    cbv beta iota delta
      [chat_completions_create bind emit lift ret raise
         first_choice_content].
    assert (A : api_calls (t1 ++ [ApiCall (grade_request (c :: e))])
                = api_calls t ++ [grade_request (c :: e)])
      by (rewrite api_calls_app, L; reflexivity).
    destruct (create (grade_request (c :: e))) as [[|content others]|ex];
      cbn [snd]; try (rewrite A, length_app; cbn [List.length]; lia).
    match goal with
    | |- context [logger_log sink ?l ?f ?a ?u] =>
        pose proof (logger_log_api_calls l f a u) as L2;
        destruct (logger_log sink l f a u) as [[[]|e'] t2]
    end; cbn [snd] in L2.
    + rewrite resolve_io_api_calls, L2, A, length_app. cbn [List.length].
      lia.
    + cbn [snd]. rewrite L2, A, length_app. cbn [List.length]. lia.
Qed.

(** The [except] clause adds no API request. *)
Lemma grade_io_api_calls (got : outcome json) (t : trace) :
  api_calls (snd (grade_io json_loads create sink got t))
  = api_calls (snd (grade_try_io json_loads create sink got t)).
Proof.
  unfold grade_io, try_except.
  destruct (grade_try_io json_loads create sink got t) as [[r|e] t1];
    [reflexivity|].
  unfold on_exception_io, bind. cbn [snd].
  match goal with
  | |- context [logger_log sink ?l ?f ?a t1] =>
      pose proof (logger_log_api_calls l f a t1) as L;
      destruct (logger_log sink l f a t1) as [[[]|e'] t2]
  end; exact L.
Qed.

(** What the outer [try] makes of a run of its body, by what the logger
    does in the [except] clause. *)
Lemma grade_io_unfold (got : outcome json) (t : trace) :
  grade_io json_loads create sink got t
  = match grade_try_io json_loads create sink got t with
    | (Returns r, t') => (Returns r, t')
    | (Raises e, t') =>
        match
          sink t' (Log EXCEPTION "Unexpected error during grading: %s"
                     [ArgStr (ascii_safe_preview (str_exn e))])
        with
        | Returns _ =>
            (Returns (jsonify (error_body_of (str_exn e)) 500),
             t' ++ [Log EXCEPTION "Unexpected error during grading: %s"
                      [ArgStr (ascii_safe_preview (str_exn e))]])
        | Raises e' => (Raises e', t')
        end
    end.
Proof.
  unfold grade_io, try_except.
  destruct (grade_try_io json_loads create sink got t) as [[r|e] t1];
    [reflexivity|].
  unfold on_exception_io, bind, logger_log, ret.
  now destruct (sink t1 _).
Qed.

(** Claim C7, as amended.  Whatever the body of the [try] raises, the
    call of [get_json] and the calls of the logger included, is answered
    with 500 and [{"error": str(e)}] when the logger takes the record of
    the [except] clause, and the API is called at most once, so no
    failure is tried again. *)
Theorem grade_io_catches (got : outcome json) (t : trace) :
  (forall t' ev, is_exception_record ev = true -> sink t' ev = Returns tt) ->
  (exists r t', grade_io json_loads create sink got t = (Returns r, t'))
  /\ (forall e t1,
        grade_try_io json_loads create sink got t = (Raises e, t1) ->
        grade_io json_loads create sink got t
        = (Returns {| body := JObj [(py "error", JStr (str_exn e))];
                      status := 500 |},
           t1 ++ [Log EXCEPTION "Unexpected error during grading: %s"
                    [ArgStr (ascii_safe_preview (str_exn e))]]))
  /\ (forall e,
        got = Raises e ->
        grade_io json_loads create sink got t
        = (Returns {| body := JObj [(py "error", JStr (str_exn e))];
                      status := 500 |},
           t ++ [Log EXCEPTION "Unexpected error during grading: %s"
                   [ArgStr (ascii_safe_preview (str_exn e))]]))
  /\ List.length (api_calls (snd (grade_io json_loads create sink got t)))
     <= S (List.length (api_calls t)).
Proof.
  intros O.
  assert (C : forall e t1,
             grade_try_io json_loads create sink got t = (Raises e, t1) ->
             grade_io json_loads create sink got t
             = (Returns (jsonify (error_body_of (str_exn e)) 500),
                t1 ++ [Log EXCEPTION "Unexpected error during grading: %s"
                         [ArgStr (ascii_safe_preview (str_exn e))]])).
  { intros e t1 H. rewrite grade_io_unfold, H.
    now rewrite (O t1 (Log EXCEPTION _ _) eq_refl). }
  split; [|split; [|split]].
  - destruct (grade_try_io json_loads create sink got t) as [[r|e] t1] eqn:E.
    + exists r, t1. now rewrite grade_io_unfold, E.
    + eexists. eexists. now apply C.
  - exact C.
  - intros e ->. now apply C.
  - rewrite grade_io_api_calls. apply grade_try_io_api_calls_le.
Qed.


(** Without an essay the body of the [try] comes down to the call of
    the logger. *)
Lemma grade_try_io_no_essay (payload : json) (t : trace) :
  NoEssay payload ->
  grade_try_io json_loads create sink (Returns payload) t
  = match sink t (Log INFO "Empty essay input" []) with
    | Returns _ =>
        (Returns (jsonify (error_body "Essay text required") 400),
         t ++ [Log INFO "Empty essay input" []])
    | Raises e => (Raises e, t)
    end.
Proof.
  intros H.
  assert (L : (logger_log sink INFO "Empty essay input" [] ;;
               ret (jsonify (error_body "Essay text required") 400))%py_do t
              = match sink t (Log INFO "Empty essay input" []) with
                | Returns _ =>
                    (Returns (jsonify (error_body "Essay text required") 400),
                     t ++ [Log INFO "Empty essay input" []])
                | Raises e => (Raises e, t)
                end).
  { unfold bind, logger_log, ret. now destruct (sink t _). }
  rewrite <- L. unfold grade_try_io, py_or.
  cbv beta iota delta [bind lift].
  destruct H as [payload F|d Hl|d v Hl F|d s Hl E].
  - rewrite F. reflexivity.
  - destruct d as [|kv d]; [reflexivity|]. cbn [truthy].
    cbv beta iota delta [attr_get ret]. rewrite Hl. reflexivity.
  - rewrite (dict_lookup_some_nonempty _ _ _ Hl).
    cbv beta iota delta [attr_get ret]. rewrite Hl, F. reflexivity.
  - rewrite (dict_lookup_some_nonempty _ _ _ Hl).
    cbv beta iota delta [attr_get ret]. rewrite Hl.
    destruct s as [|c s]; [reflexivity|]. cbn [truthy].
    cbv beta iota delta [attr_strip ret]. rewrite E. reflexivity.
Qed.

(** When the logger raises on the record of an empty essay, the answer
    is the 500 of the [except] clause with the error of the logger, not
    400. *)
Theorem grade_io_log_failure_500 (payload : json) (t : trace) (e : exn) :
  NoEssay payload ->
  sink t (Log INFO "Empty essay input" []) = Raises e ->
  sink t (Log EXCEPTION "Unexpected error during grading: %s"
            [ArgStr (ascii_safe_preview (str_exn e))]) = Returns tt ->
  grade_io json_loads create sink (Returns payload) t
  = (Returns {| body := JObj [(py "error", JStr (str_exn e))];
                status := 500 |},
     t ++ [Log EXCEPTION "Unexpected error during grading: %s"
             [ArgStr (ascii_safe_preview (str_exn e))]]).
Proof.
  intros N F O.
  rewrite grade_io_unfold, (grade_try_io_no_essay payload t N), F, O.
  reflexivity.
Qed.

End SurroundingsFacts.

(** ** The endpoint on concrete requests and replies

    The handler is run with the reference decoder and an API that
    returns a fixed reply. *)

Lemma weather_submits : Submits weather (py "The weather is nice.").
Proof.
  exists [(py "essay", JStr (py "The weather is nice."))],
    (py "The weather is nice.").
  repeat split; reflexivity.
Qed.

Lemma canned_replies (essay reply : pystr) : Replies (canned reply) essay reply.
Proof. now exists (Some reply), []. Qed.






Lemma grade_unparsable_span_500_witness :
  RefJson.loads (strip (py "{not json}"))
  = Raises (JSONDecodeError not_json_message)
  /\ re_search BRACE_SPAN (strip (py "{not json}")) = Some (py "{not json}")
  /\ handle RefJson.loads (canned (py "{not json}")) weather
     = (Returns
          {| body := JObj [(py "error", JStr not_json_message)];
             status := 500 |},
        trace_to_reply (py "The weather is nice.") (strip (py "{not json}"))
          ++ [Log EXCEPTION "Unexpected error during grading: %s"
                [ArgStr (ascii_safe_preview not_json_message)]]).
Proof.
  assert (E : RefJson.loads (strip (py "{not json}"))
              = Raises (JSONDecodeError not_json_message))
    by (vm_compute; reflexivity).
  assert (S : re_search BRACE_SPAN (strip (py "{not json}"))
              = Some (py "{not json}")) by (vm_compute; reflexivity).
  split; [exact E|]. split; [exact S|].
  apply (grade_unparsable_span_500 RefJson.loads (canned (py "{not json}"))
           weather (py "The weather is nice.") (py "{not json}")
           (py "{not json}") not_json_message not_json_message
           weather_submits).
  - discriminate.
  - apply canned_replies.
  - exact E.
  - exact S.
  - vm_compute. reflexivity.
Defined.





(** Claim C7 fails as it is stated: when the stream of the log is a
    broken pipe, the logger raises in the [try], which is caught, and
    again in the [except] clause, and that error leaves the handler. *)
Lemma grade_io_log_failure_escapes :
  grade_io RefJson.loads unreachable_api broken_sink (Returns weather) []
  = (Raises (OtherException "BrokenPipeError" (py "[Errno 32] Broken pipe")),
     [])
  /\ forall r,
       fst (grade_io RefJson.loads unreachable_api broken_sink
              (Returns weather) [])
       <> Returns r.
Proof.
  split; [vm_compute; reflexivity|]. vm_compute. discriminate.
Qed.

Lemma grade_io_catches_witness :
  grade_io RefJson.loads unreachable_api open_sink deep_body []
  = (Returns
       {| body :=
            JObj [(py "error",
                   JStr (py "maximum recursion depth exceeded while decoding a JSON array from a unicode string"))];
          status := 500 |},
     [Log EXCEPTION "Unexpected error during grading: %s"
        [ArgStr (py "maximum recursion depth exceeded while decoding a JSON array from a unicode string")]]).
Proof.
  exact (proj1 (proj2 (proj2
           (grade_io_catches RefJson.loads unreachable_api open_sink
              deep_body [] (fun _ _ _ => eq_refl))))
           (OtherException "RecursionError"
              (py "maximum recursion depth exceeded while decoding a JSON array from a unicode string"))
           eq_refl).
Defined.






(** The scenario of the specification: the model grades the essay with
    seven well-formed fields and the caller receives them. *)
Example grade_weather_scenario :
  fst (handle RefJson.loads
         (canned
            (jtext "{'task_response':3,'organization':3,'language_use':3,"
             ++ jtext "'development':3,'mechanics':3,'overall_score':3,"
             ++ jtext "'concise_rationale':'Too short; needs development.'}"))
         weather)
  = Returns {| body := JObj seven_scores; status := 200 |}.
Proof. vm_compute. reflexivity. Qed.

(** The API cannot be reached: one call, no second try, and 500 with the
    message of the client's exception. *)
Example grade_api_unreachable :
  handle RefJson.loads unreachable_api weather
  = (Returns
       {| body := JObj [(py "error", JStr (py "Connection error."))];
          status := 500 |},
     [Log INFO "Received essay length: %d; preview: %s"
        [ArgInt 20; ArgStr (py "The weather is nice.")];
      ApiCall (grade_request (py "The weather is nice."));
      Log EXCEPTION "Unexpected error during grading: %s"
        [ArgStr (py "Connection error.")]]).
Proof. vm_compute. reflexivity. Qed.

(** The API answers without any choice: [choices[0]] raises. *)
Example grade_no_choice :
  fst (handle RefJson.loads (fun _ => Returns []) weather)
  = Returns
      {| body := JObj [(py "error", JStr (py "list index out of range"))];
         status := 500 |}.
Proof. vm_compute. reflexivity. Qed.

(** ** The log preview and the stream handler *)

Lemma hex_fixed_ascii (width : nat) (c : N) :
  forallb is_ascii (hex_fixed width c) = true.
Proof.
  revert c; induction width as [|w IH]; intros c; cbn [hex_fixed].
  - reflexivity.
  - rewrite forallb_app, IH. cbn [forallb]. rewrite andb_true_r.
    unfold is_ascii.
    pose proof (N.mod_lt c 16 ltac:(discriminate)) as L.
    destruct (N.ltb_spec (c mod 16) 10); apply N.ltb_lt; lia.
Qed.

Lemma hex_fixed_length (width : nat) (c : N) :
  List.length (hex_fixed width c) = width.
Proof.
  revert c; induction width as [|w IH]; intros c; cbn [hex_fixed].
  - reflexivity.
  - rewrite length_app, IH. cbn. lia.
Qed.

Lemma backslashreplace_ascii (c : N) :
  forallb is_ascii (backslashreplace c) = true.
Proof.
  unfold backslashreplace.
  destruct (c <? 128)%N eqn:A.
  - cbn [forallb]. unfold is_ascii. now rewrite A.
  - repeat match goal with
      | |- context [if ?b then _ else _] => destruct b
      end; rewrite forallb_app, hex_fixed_ascii; reflexivity.
Qed.

Lemma backslashreplace_length (c : N) :
  List.length (backslashreplace c) <= 10.
Proof.
  unfold backslashreplace.
  repeat match goal with
    | |- context [if ?b then _ else _] => destruct b
    end; rewrite ?length_app, ?hex_fixed_length; cbn; lia.
Qed.

Lemma flat_map_backslashreplace_ascii (s : pystr) :
  forallb is_ascii (flat_map backslashreplace s) = true.
Proof.
  induction s as [|c s IH]; cbn [flat_map]; [reflexivity|].
  now rewrite forallb_app, backslashreplace_ascii, IH.
Qed.

Lemma flat_map_backslashreplace_id (s : pystr) :
  forallb is_ascii s = true -> flat_map backslashreplace s = s.
Proof.
  induction s as [|c s IH]; cbn [flat_map forallb]; [reflexivity|].
  intros H. apply andb_prop in H as [A B].
  rewrite (IH B). unfold backslashreplace. unfold is_ascii in A.
  now rewrite A.
Qed.

Lemma flat_map_backslashreplace_length (s : pystr) :
  List.length (flat_map backslashreplace s) <= 10 * List.length s.
Proof.
  induction s as [|c s IH]; cbn [flat_map List.length]; [lia|].
  rewrite length_app. pose proof (backslashreplace_length c). lia.
Qed.

Lemma ascii_safe_preview_ascii (s : pystr) :
  forallb is_ascii (ascii_safe_preview s) = true.
Proof. apply flat_map_backslashreplace_ascii. Qed.

(** The preview holds ASCII characters only, whatever the text, and
    escaping it once more changes nothing. *)
Theorem ascii_safe_preview_is_ascii (s : pystr) :
  forallb is_ascii (ascii_safe_preview s) = true
  /\ ascii_backslashreplace (ascii_safe_preview s) = ascii_safe_preview s.
Proof.
  split; [apply ascii_safe_preview_ascii|].
  apply flat_map_backslashreplace_id, ascii_safe_preview_ascii.
Qed.

(** An ASCII text of 120 characters at most is its own preview. *)
Theorem ascii_safe_preview_short_ascii (s : pystr) :
  forallb is_ascii s = true -> List.length s <= 120 ->
  ascii_safe_preview s = s.
Proof.
  intros A L. unfold ascii_safe_preview.
  assert (E : (120 <? List.length s) = false) by (apply Nat.ltb_ge; lia).
  rewrite E, app_nil_r, firstn_all2 by lia.
  now apply flat_map_backslashreplace_id.
Qed.

(** The preview of a text of more than 120 characters shows its first
    120 characters and three dots: two such texts that start alike have
    the same preview. *)
Theorem ascii_safe_preview_truncates (s1 s2 : pystr) :
  120 < List.length s1 -> 120 < List.length s2 ->
  firstn 120 s1 = firstn 120 s2 ->
  ascii_safe_preview s1 = ascii_safe_preview s2
  /\ ascii_safe_preview s1
     = ascii_safe_preview (firstn 120 s1) ++ py "...".
Proof.
  intros L1 L2 E. unfold ascii_safe_preview.
  apply Nat.ltb_lt in L1 as B1. apply Nat.ltb_lt in L2 as B2.
  rewrite B1, B2, E. split; [reflexivity|].
  rewrite <- E, flat_map_app.
  rewrite firstn_firstn, Nat.min_id.
  assert (F : (120 <? List.length (firstn 120 s1)) = false).
  { apply Nat.ltb_ge. rewrite length_firstn. lia. }
  rewrite F, app_nil_r. reflexivity.
Qed.

(** The preview is never longer than 1203 characters: 120 escapes of
    ten characters and three dots. *)
Theorem ascii_safe_preview_length (s : pystr) :
  List.length (ascii_safe_preview s) <= 1203.
Proof.
  unfold ascii_safe_preview. rewrite flat_map_app, length_app.
  pose proof (flat_map_backslashreplace_length (firstn 120 s)) as P.
  rewrite length_firstn in P.
  assert (D : List.length
                (flat_map backslashreplace
                   (if 120 <? List.length s then py "..." else []))
              <= 3) by (destruct (120 <? List.length s); cbn; lia).
  lia.
Qed.

(** On a stream that takes every text of ASCII characters and refuses a
    text with a [UnicodeEncodeError] only, [emit] hands the stream one
    text for a record that has one: the text as it is when the first
    [write] returns, its escaped form otherwise, and the terminator
    after it; it then returns or raises as [flush] does. *)
Theorem emit_on_ascii_capable
  (write : list pystr -> pystr -> outcome unit)
  (flush : list pystr -> outcome unit)
  (r : log_record) (taken : list pystr) (msg : pystr) :
  (forall d s, forallb is_ascii s = true -> write d s = Returns tt) ->
  (forall d s e, write d s = Raises e -> is_UnicodeEncodeError e = true) ->
  record_text r = Returns msg ->
  emit_on write flush r taken
  = (let out :=
       match write taken (msg ++ TERMINATOR) with
       | Returns _ => msg
       | Raises _ => ascii_backslashreplace msg
       end in
     (flush (taken ++ [out ++ TERMINATOR]), taken ++ [out ++ TERMINATOR])).
Proof.
  intros A U E. unfold emit_on. rewrite E.
  destruct (write taken (msg ++ TERMINATOR)) as [u|e] eqn:W; [reflexivity|].
  rewrite (U _ _ _ W). cbv zeta.
  rewrite A; [reflexivity|].
  unfold ascii_backslashreplace, TERMINATOR.
  rewrite forallb_app, flat_map_backslashreplace_ascii. reflexivity.
Qed.


(** ** More on trimming and on the brace pattern *)



Lemma star_rbrace_exact (s : pystr) (n : nat) :
  star (match_here [Lit RBRACE]) s = Some n ->
  exists m b, s = m ++ RBRACE :: b /\ ~ In RBRACE b /\ n = S (List.length m).
Proof.
  revert n; induction s as [|x s IH]; intros n.
  - discriminate.
  - rewrite star_cons.
    destruct (star (match_here [Lit RBRACE]) s) as [k|] eqn:E.
    + intros H; injection H as <-.
      destruct (IH k eq_refl) as (m & b & -> & Hb & ->).
      exists (x :: m), b. repeat split; assumption || reflexivity.
    + rewrite match_rbrace_cons.
      destruct (N.eqb_spec x RBRACE) as [->|_]; [|discriminate].
      intros H; injection H as <-. exists [], s. repeat split.
      intros I. now apply (star_rbrace_in s I).
Qed.

(** Whatever the search of the repair step returns starts at the first
    opening brace of the text, ends at its last closing brace, and is
    taken from the text as it is. *)
Theorem re_search_brace_shape (text span : pystr) :
  re_search BRACE_SPAN text = Some span ->
  exists a m b,
    text = a ++ span ++ b /\ span = LBRACE :: m ++ [RBRACE]
    /\ ~ In LBRACE a /\ ~ In RBRACE b.
Proof.
  revert span; induction text as [|x text IH]; intros span.
  - discriminate.
  - rewrite re_search_cons, match_brace_span_cons.
    destruct (N.eqb_spec x LBRACE) as [->|Hx].
    + destruct (star (match_here [Lit RBRACE]) text) as [n|] eqn:E.
      * destruct (star_rbrace_exact _ _ E) as (m & b & -> & Hb & ->).
        cbn [option_map]. rewrite firstn_cons.
        change (RBRACE :: b) with ([RBRACE] ++ b).
        rewrite app_assoc, firstn_app.
        replace (S (List.length m)) with (List.length (m ++ [RBRACE]))
          by (rewrite length_app; cbn; lia).
        rewrite firstn_all, Nat.sub_diag, app_nil_r.
        intros H; injection H as <-.
        exists [], m, b.
        split; [reflexivity|]. split; [reflexivity|]. split; [easy|exact Hb].
      * cbn [option_map]. intros H. exfalso.
        apply re_search_brace_some in H. destruct H as (a & m & b & ->).
        assert (I : In RBRACE (a ++ LBRACE :: m ++ RBRACE :: b)).
        { apply in_or_app. right. right. apply in_elt. }
        now apply (star_rbrace_in _ I).
    + intros H. destruct (IH span H) as (a & m & b & -> & -> & Ha & Hb).
      exists (x :: a), m, b. repeat split; try assumption.
      intros [->|I]; [now elim Hx|now elim Ha].
Qed.

(** The prompt keeps the essay apart: two essays with the same prompt
    are the same essay. *)
Theorem user_prompt_injective (e1 e2 : pystr) :
  user_prompt e1 = user_prompt e2 -> e1 = e2.
Proof.
  unfold user_prompt. rewrite <- !app_assoc. intros H.
  do 3 apply app_inv_head in H. now apply app_inv_tail in H.
Qed.

(** ** Every answer of the endpoint *)

(** A decoded body is turned away, or breaks the look-up of the essay,
    or carries an essay. *)
Lemma payload_cases (payload : json) :
  NoEssay payload
  \/ (truthy payload = true /\ is_object payload = false)
  \/ (exists d v,
        payload = JObj d /\ dict_lookup (py "essay") d = Some v
        /\ truthy v = true /\ forall s, v <> JStr s)
  \/ (exists essay, Submits payload essay /\ essay <> []).
Proof.
  destruct (truthy payload) eqn:T; [|left; now apply NoEssay_body].
  destruct payload as [|b|z|f|s|l|d];
    try (right; left; split; reflexivity).
  destruct (dict_lookup (py "essay") d) as [v|] eqn:L;
    [|left; now apply NoEssay_absent].
  destruct (truthy v) eqn:Tv; [|left; now apply NoEssay_falsy with v].
  destruct v as [|b|z|f|s|l|d'];
    try (right; right; left; eexists; eexists;
         repeat split; try eassumption; discriminate).
  destruct (strip s) as [|c e] eqn:E; [left; now apply NoEssay_blank with s|].
  right; right; right. exists (c :: e). split; [|discriminate].
  exists d, s. repeat split; auto.
Qed.


Section Answers.

Variable json_loads : pystr -> outcome json.
Variable create : chat_request -> outcome completion.

#[local] Abbreviation grade_try := (grade_try json_loads create).
#[local] Abbreviation grade := (grade json_loads create).
#[local] Abbreviation handle := (handle json_loads create).
#[local] Abbreviation Answer := (Answer json_loads create).


(** Lines 82 to 105 for a request with an essay: two events, and then
    the API decides. *)
Lemma grade_try_submitted (payload : json) (essay : pystr) (t : trace) :
  Submits payload essay -> essay <> [] ->
  grade_try payload t
  = match create (grade_request essay) with
    | Raises e =>
        (Raises e,
         t ++ [Log INFO "Received essay length: %d; preview: %s"
                 [ArgInt (List.length essay);
                  ArgStr (ascii_safe_preview essay)];
               ApiCall (grade_request essay)])
    | Returns [] =>
        (Raises (IndexError (py "list index out of range")),
         t ++ [Log INFO "Received essay length: %d; preview: %s"
                 [ArgInt (List.length essay);
                  ArgStr (ascii_safe_preview essay)];
               ApiCall (grade_request essay)])
    | Returns (c :: _) =>
        let text := strip (match c with Some s => s | None => [] end) in
        resolve json_loads text (t ++ trace_to_reply essay text)
    end.
Proof.
  intros (d & s & -> & Hl & ->) Hne.
  unfold grade_try, py_or.
  rewrite (dict_lookup_some_nonempty _ _ _ Hl).
  cbv beta iota delta [bind attr_get ret]. rewrite Hl.
  assert (Hs : (if truthy (JStr s) then JStr s else JStr []) = JStr s)
    by (destruct s; reflexivity).
  rewrite Hs. cbv beta iota delta [attr_strip ret].
  destruct (strip s) as [|c e] eqn:E; [congruence|].
  cbv beta iota delta
    [bind logger_info emit chat_completions_create lift ret raise
       first_choice_content].
  destruct (create (grade_request (c :: e))) as [[|c0 others]|ex];
    cbv zeta; unfold trace_to_reply; rewrite <- ?app_assoc; reflexivity.
Qed.

Lemma api_calls_log (t : trace) (l : log_level) (f : string)
  (a : list log_arg) :
  api_calls (t ++ [Log l f a]) = api_calls t.
Proof. rewrite api_calls_app. cbn [api_calls]. apply app_nil_r. Qed.

(** The key check settles a parsed reply. *)
Lemma validate_settled (payload : json) (essay content : pystr) (v : json)
  (t : trace) :
  Submits payload essay -> essay <> [] -> Replies create essay content ->
  Parses json_loads (strip content) v ->
  api_calls t = [grade_request essay] ->
  Settled json_loads create payload (validate_result v t).
Proof.
  intros Hs Hne Hr Hp Ht.
  destruct (is_object v) eqn:O.
  - destruct v as [|b|z|f|s|l|d]; try discriminate.
    destruct (issubset required (map fst d)) eqn:K.
    + rewrite validate_result_complete by assumption.
      cbn [Settled]. rewrite Ht. now apply Answer_graded with content.
    + rewrite validate_result_incomplete by assumption.
      cbn [Settled]. rewrite api_calls_log, Ht.
      now apply Answer_missing_keys with content.
  - rewrite validate_result_non_object by assumption.
    cbn [Settled]. rewrite Ht. now apply Answer_failure.
Qed.

(** Lines 108 to 125 settle every reply. *)
Lemma resolve_settled (payload : json) (essay content : pystr) (t : trace) :
  Submits payload essay -> essay <> [] -> Replies create essay content ->
  api_calls t = [grade_request essay] ->
  Settled json_loads create payload (resolve json_loads (strip content) t).
Proof.
  intros Hs Hne Hr Ht. unfold resolve, bind.
  destruct (json_loads (strip content)) as [v|e] eqn:E.
  - rewrite (parse_reply_strict _ _ _ _ E).
    apply validate_settled with essay content; auto. now left.
  - destruct (is_JSONDecodeError e) eqn:D.
    2:{ rewrite (parse_reply_other _ _ _ _ E D).
        cbn [Settled]. rewrite Ht. now apply Answer_failure. }
    destruct e as [msg| | |]; try discriminate.
    destruct (re_search BRACE_SPAN (strip content)) as [span|] eqn:S.
    + rewrite (parse_reply_span _ _ _ _ _ E S).
      destruct (json_loads span) as [v|e'] eqn:F.
      * apply validate_settled with essay content; auto.
        right. now exists msg, span.
      * cbn [Settled]. rewrite Ht. now apply Answer_failure.
    + rewrite (parse_reply_no_span _ _ _ _ E S).
      cbv beta iota delta [ret Settled]. rewrite api_calls_log, Ht.
      apply Answer_not_json with msg; auto.
      intros B. apply brace_delimited_search in B. now apply B.
Qed.

(** The body of the [try] settles every request. *)
Lemma grade_try_settled (payload : json) :
  Settled json_loads create payload (grade_try payload []).
Proof.
  destruct (payload_cases payload)
    as [N|[(T & O)|[(d & v & -> & Hl & T & Hv)|(essay & Hs & Hne)]]].
  - rewrite (grade_try_no_essay json_loads create payload [] N).
    cbn [Settled app api_calls]. now apply Answer_no_essay.
  - assert (E : grade_try payload []
                = (Raises (no_attribute payload "get"), [])).
    { unfold grade_try, py_or. rewrite T.
      destruct payload; try discriminate; reflexivity. }
    rewrite E. cbn [Settled api_calls].
    apply Answer_bad_request.
    + intros N. destruct N; try discriminate. congruence.
    + intros essay (d & s & -> & _). discriminate.
  - assert (E : grade_try (JObj d) [] = (Raises (no_attribute v "strip"), [])).
    { unfold grade_try, py_or.
      rewrite (dict_lookup_some_nonempty _ _ _ Hl).
      cbv beta iota delta [bind attr_get ret]. rewrite Hl, T.
      destruct v; try reflexivity. now elim (Hv s). }
    rewrite E. cbn [Settled api_calls].
    apply Answer_bad_request.
    + intros N. remember (JObj d) as p eqn:P.
      destruct N as [p F|d' L|d' v' L F|d' s' L Es].
      * subst p. destruct d; [discriminate Hl|discriminate F].
      * injection P as ->. congruence.
      * injection P as ->. rewrite Hl in L. injection L as <-. congruence.
      * injection P as ->. rewrite Hl in L. injection L as ->.
        now elim (Hv s').
    + intros essay (d' & s & Hd & L & _). injection Hd as <-.
      rewrite Hl in L. injection L as ->. now elim (Hv s).
  - rewrite (grade_try_submitted payload essay [] Hs Hne). cbn [app].
    destruct (create (grade_request essay)) as [[|c others]|e] eqn:C.
    + cbn [Settled api_calls]. now apply Answer_failure.
    + cbv zeta. apply resolve_settled with essay; auto.
      exists c, others. now split.
    + cbn [Settled api_calls]. now apply Answer_failure.
Qed.

(** [grade] always answers, and with one of the six forms. *)
Lemma grade_answer (payload : json) :
  exists r t,
    handle payload = (Returns r, t) /\ Answer payload r (api_calls t).
Proof.
  unfold handle. rewrite grade_unfold.
  pose proof (grade_try_settled payload) as S.
  destruct (grade_try payload []) as [[r|e] t]; cbn [Settled] in S.
  - now exists r, t.
  - eexists; eexists; split; [reflexivity|]. now rewrite api_calls_log.
Qed.

End Answers.

(** ** What the answers have in common *)

Section AnswerFacts.

Variable json_loads : pystr -> outcome json.
Variable create : chat_request -> outcome completion.

#[local] Abbreviation grade_try := (grade_try json_loads create).
#[local] Abbreviation grade := (grade json_loads create).
#[local] Abbreviation handle := (handle json_loads create).
#[local] Abbreviation Answer := (Answer json_loads create).


(** A 200 answer is only given for a request with an essay, after one
    call of the API, and its body is an object with the seven required
    keys that the reply of the model parsed to. *)
Theorem grade_200_sound (payload : json) (r : response) :
  fst (handle payload) = Returns r -> status r = 200%N ->
  exists essay content d,
    Submits payload essay /\ essay <> [] /\ Replies create essay content
    /\ Parses json_loads (strip content) (JObj d)
    /\ issubset required (map fst d) = true
    /\ body r = JObj d
    /\ api_calls (snd (handle payload)) = [grade_request essay].
Proof.
  destruct (grade_answer json_loads create payload) as (r' & t & H & A).
  rewrite H. cbn [fst snd]. intros E S. injection E as <-.
  destruct A; cbn [status jsonify] in S; try discriminate S.
  exists essay, content, d. repeat split; assumption.
Qed.




(** A 502 answer always follows a call of the API and carries what the
    model sent: the trimmed text that did not parse and has no
    brace-delimited substring, or the parsed object that lacks a
    required key. *)
Theorem grade_502_sound (payload : json) (r : response) :
  fst (handle payload) = Returns r -> status r = 502%N ->
  exists essay content,
    Submits payload essay /\ essay <> [] /\ Replies create essay content
    /\ api_calls (snd (handle payload)) = [grade_request essay]
    /\ ((exists msg,
           json_loads (strip content) = Raises (JSONDecodeError msg)
           /\ ~ brace_delimited (strip content)
           /\ body r
              = JObj [(py "error",
                       JStr (py "Model returned non-JSON response"));
                      (py "raw", JStr (strip content))])
        \/ (exists d,
              Parses json_loads (strip content) (JObj d)
              /\ issubset required (map fst d) = false
              /\ body r
                 = JObj [(py "error",
                          JStr (py "Missing keys in model output"));
                         (py "raw", JObj d)])).
Proof.
  destruct (grade_answer json_loads create payload) as (r' & t & H & A).
  rewrite H. cbn [fst snd]. intros E S. injection E as <-.
  destruct A; cbn [status jsonify] in S; try discriminate S;
    exists essay, content; repeat (split; [assumption || reflexivity|]).
  - left. exists msg. repeat split; assumption.
  - right. exists d. repeat split; assumption.
Qed.

(** Only the [essay] field of the body counts: two objects with the same
    essay get the same answer and leave the same trace. *)
Theorem grade_ignores_other_fields (d1 d2 : pydict) :
  dict_lookup (py "essay") d1 = dict_lookup (py "essay") d2 ->
  handle (JObj d1) = handle (JObj d2).
Proof.
  intros E. unfold handle. rewrite !grade_unfold.
  assert (G : forall d,
             grade_try (JObj d) []
             = grade_try
                 (JObj [(py "essay",
                         match dict_lookup (py "essay") d with
                         | Some v => v
                         | None => JNull
                         end)]) []).
  { intros d. unfold grade_try, py_or.
    destruct d as [|kv d]; [reflexivity|]. cbn [truthy].
    cbv beta iota delta [bind attr_get ret].
    replace (dict_lookup (py "essay") [(py "essay",
               match dict_lookup (py "essay") (kv :: d) with
               | Some v => v
               | None => JNull
               end)])
      with (Some match dict_lookup (py "essay") (kv :: d) with
                 | Some v => v
                 | None => JNull
                 end) by reflexivity.
    reflexivity. }
  now rewrite (G d1), (G d2), E.
Qed.




End AnswerFacts.

(** ** The added properties on concrete inputs *)

Lemma ascii_safe_preview_short_ascii_witness :
  ascii_safe_preview (py "The weather is nice.")
  = py "The weather is nice.".
Proof.
  apply ascii_safe_preview_short_ascii; [reflexivity|].
  vm_compute. lia.
Defined.

Lemma ascii_safe_preview_truncates_witness :
  ascii_safe_preview long_text_a = ascii_safe_preview long_text_b
  /\ ascii_safe_preview long_text_a
     = ascii_safe_preview (firstn 120 long_text_a) ++ py "...".
Proof.
  apply ascii_safe_preview_truncates.
  - apply Nat.ltb_lt. reflexivity.
  - apply Nat.ltb_lt. reflexivity.
  - reflexivity.
Defined.

Lemma emit_on_ascii_capable_witness :
  emit_on ascii_write flush_ok cafe_record []
  = (Returns tt, [py "caf\xe9" ++ [LF]]).
Proof.
  apply (emit_on_ascii_capable ascii_write flush_ok cafe_record []
           (py "caf" ++ [233%N])).
  - intros d s H. unfold ascii_write. now rewrite H.
  - intros d s e. unfold ascii_write.
    destruct (forallb is_ascii s); [discriminate|].
    intros H. injection H as <-. reflexivity.
  - reflexivity.
Defined.


Lemma re_search_brace_shape_witness :
  exists a m b,
    py "ab{c}d}e" = a ++ py "{c}d}" ++ b
    /\ py "{c}d}" = LBRACE :: m ++ [RBRACE]
    /\ ~ In LBRACE a /\ ~ In RBRACE b.
Proof.
  apply (re_search_brace_shape (py "ab{c}d}e") (py "{c}d}")).
  reflexivity.
Defined.

Lemma user_prompt_injective_witness :
  py "The weather is nice." = py "The weather is nice.".
Proof.
  apply (user_prompt_injective (py "The weather is nice.")
           (py "The weather is nice.")).
  reflexivity.
Defined.

Lemma grade_200_sound_witness :
  exists essay content d,
    Submits weather essay /\ essay <> []
    /\ Replies (canned extra_keys_reply) essay content
    /\ Parses RefJson.loads (strip content) (JObj d)
    /\ issubset required (map fst d) = true
    /\ JObj ([(py "model", JStr (py "m"))] ++ seven_scores
               ++ [(py "confidence", JArr [JInt 1; JInt 2])])
       = JObj d
    /\ api_calls (snd (handle RefJson.loads (canned extra_keys_reply) weather))
       = [grade_request essay].
Proof.
  apply (grade_200_sound RefJson.loads (canned extra_keys_reply) weather
           {| body :=
                JObj ([(py "model", JStr (py "m"))] ++ seven_scores
                        ++ [(py "confidence", JArr [JInt 1; JInt 2])]);
              status := 200 |}).
  - vm_compute. reflexivity.
  - reflexivity.
Defined.

Lemma grade_502_sound_witness :
  exists essay content,
    Submits weather essay /\ essay <> []
    /\ Replies (canned (py "I cannot grade this.")) essay content
    /\ api_calls
         (snd (handle RefJson.loads (canned (py "I cannot grade this."))
                 weather))
       = [grade_request essay]
    /\ ((exists msg,
           RefJson.loads (strip content) = Raises (JSONDecodeError msg)
           /\ ~ brace_delimited (strip content)
           /\ JObj [(py "error",
                     JStr (py "Model returned non-JSON response"));
                    (py "raw", JStr (py "I cannot grade this."))]
              = JObj [(py "error",
                       JStr (py "Model returned non-JSON response"));
                      (py "raw", JStr (strip content))])
        \/ (exists d,
              Parses RefJson.loads (strip content) (JObj d)
              /\ issubset required (map fst d) = false
              /\ JObj [(py "error",
                        JStr (py "Model returned non-JSON response"));
                       (py "raw", JStr (py "I cannot grade this."))]
                 = JObj [(py "error",
                          JStr (py "Missing keys in model output"));
                         (py "raw", JObj d)])).
Proof.
  apply (grade_502_sound RefJson.loads (canned (py "I cannot grade this."))
           weather
           {| body :=
                JObj [(py "error",
                       JStr (py "Model returned non-JSON response"));
                      (py "raw", JStr (py "I cannot grade this."))];
              status := 502 |}).
  - vm_compute. reflexivity.
  - reflexivity.
Defined.

Lemma grade_ignores_other_fields_witness :
  handle RefJson.loads (canned extra_keys_reply) crowded_request
  = handle RefJson.loads (canned extra_keys_reply) weather.
Proof.
  apply (grade_ignores_other_fields RefJson.loads (canned extra_keys_reply)).
  reflexivity.
Defined.







